(** * The selection-list report parser of [neet_ug_extraction.py]

    A shallow embedding of [parse_text_file] and of the Python string
    primitives it relies on, followed by the properties of the parser.

    Conventions of the embedding.
    - A Python [str] is a Rocq [string]; each [ascii] stands for the code
      point of the same number, so the texts covered are those whose code
      points are below 256.  The character classes ([str.isspace],
      [str.isdigit], the regex classes [\s] and [\d]) are those of CPython
      on that range.
    - An out-of-range subscript [parts[idx]] raises [IndexError]; the
      extractor therefore lives in an error monad, and the absence of any
      raise is a theorem, not a modelling choice.
    - The two [while] loops of the extractor carry fuel; running out of it
      is the error [Diverged], shown never to happen.
    - [logger] calls and the two counters that only feed them
      ([row_count], [skipped_lines]) are left out: nothing read by the
      returned value depends on them. *)

From Stdlib Require Import String Ascii List Bool Arith NArith ZArith Lia.
Import ListNotations.

Local Open Scope string_scope.
Local Open Scope list_scope.
Local Open Scope nat_scope.

(* ===================================================================== *)
(** * Python string primitives *)
(* ===================================================================== *)

Module PyStr.

(** The line feed, ['\n'] *)
Definition LF : ascii := "010"%char.

(** [str.isspace] on one character: U+0009..U+000D, U+001C..U+0020,
    U+0085 and U+00A0.  The regex class [\s] on [str] patterns is the same
    set. *)
Definition isspace (c : ascii) : bool :=
  let n := N_of_ascii c in
  ((9 <=? n) && (n <=? 13) || (28 <=? n) && (n <=? 32)
   || (n =? 133) || (n =? 160))%N.

(** One character of [str.isdigit]: the decimal digits and the superscript
    digits U+00B2, U+00B3, U+00B9. *)
Definition isdigit_char (c : ascii) : bool :=
  let n := N_of_ascii c in
  ((48 <=? n) && (n <=? 57) || (n =? 178) || (n =? 179) || (n =? 185))%N.

(** The regex class [\d] (Unicode category Nd): below 256, only 0..9. *)
Definition isdecimal_char (c : ascii) : bool :=
  let n := N_of_ascii c in ((48 <=? n) && (n <=? 57))%N.

Fixpoint all_chars (p : ascii -> bool) (s : string) : bool :=
  match s with
  | EmptyString => true
  | String c s' => p c && all_chars p s'
  end.

(** [s.isdigit()]: at least one character, and all of them digits. *)
Definition isdigit (s : string) : bool :=
  match s with
  | EmptyString => false
  | String _ _ => all_chars isdigit_char s
  end.

Definition is_empty (s : string) : bool :=
  match s with EmptyString => true | String _ _ => false end.

Fixpoint lstrip (s : string) : string :=
  match s with
  | EmptyString => EmptyString
  | String c s' => if isspace c then lstrip s' else s
  end.

Fixpoint rstrip (s : string) : string :=
  match s with
  | EmptyString => EmptyString
  | String c s' =>
      match rstrip s' with
      | EmptyString => if isspace c then EmptyString else String c EmptyString
      | String d r => String c (String d r)
      end
  end.

(** [s.strip()] *)
Definition strip (s : string) : string := rstrip (lstrip s).

(** [s.startswith(p)] *)
Definition startswith (s p : string) : bool := String.prefix p s.

(** [sub in s] *)
Fixpoint contains (sub s : string) : bool :=
  String.prefix sub s ||
  match s with
  | EmptyString => false
  | String _ s' => contains sub s'
  end.

(** [s.split(sep)] for a one-character separator: never an empty list. *)
Fixpoint split_on (sep : ascii) (s : string) : list string :=
  match s with
  | EmptyString => [EmptyString]
  | String c s' =>
      let r := split_on sep s' in
      if Ascii.eqb c sep then EmptyString :: r
      else String c (hd EmptyString r) :: tl r
  end.

(** Does [s] begin with a whitespace character? *)
Definition starts_with_space (s : string) : bool :=
  match s with
  | EmptyString => false
  | String c _ => isspace c
  end.

(** [s.split()]: the maximal runs of non-whitespace characters, in order.
    A non-whitespace [c] either opens a token of its own (the rest is
    empty, blank, or begins with whitespace) or extends the first token of
    the rest. *)
Fixpoint split (s : string) : list string :=
  match s with
  | EmptyString => []
  | String c s' =>
      if isspace c then split s'
      else match split s' with
           | [] => [String c EmptyString]
           | t :: ts =>
               if starts_with_space s' then String c EmptyString :: t :: ts
               else String c t :: ts
           end
  end.

(** [s.split(sep, 1)]: one element when [sep] does not occur, else the
    text before its first occurrence and the text after it. *)
Fixpoint split_once (sep : ascii) (s : string) : list string :=
  match s with
  | EmptyString => [EmptyString]
  | String c s' =>
      if Ascii.eqb c sep then [EmptyString; s']
      else match split_once sep s' with
           | [a; b] => [String c a; b]
           | _ => [s]
           end
  end.

(** [' '.join(parts)] *)
Definition join (parts : list string) : string := String.concat " " parts.

(** [x in xs] for a list or set of strings *)
Definition mem (x : string) (xs : list string) : bool :=
  existsb (String.eqb x) xs.

End PyStr.

Import PyStr.

(* ===================================================================== *)
(** * The three regular expressions of the parser *)
(* ===================================================================== *)

Module Regex.

(** Consume the literal [p] at the front of [s]. *)
Fixpoint lit (p s : string) : option string :=
  match p, s with
  | EmptyString, _ => Some s
  | String a p', String b s' => if Ascii.eqb a b then lit p' s' else None
  | String _ _, EmptyString => None
  end.

(** [\s+]: at least one whitespace character, then as many as follow.  The
    literal that follows [\s+] and [\s*] in the header pattern begins with
    a non-whitespace letter, so the longest run is the only one that can
    lead to a match and backtracking adds nothing. *)
Definition spaces1 (s : string) : option string :=
  match s with
  | String c s' => if isspace c then Some (lstrip s') else None
  | EmptyString => None
  end.

(** [re.match(r'^\s*Sr\.\s+AIR\s+NEET', line)] as a truth value *)
Definition match_table_start (line : string) : bool :=
  match lit "Sr." (lstrip line) with
  | None => false
  | Some r1 =>
  match spaces1 r1 with
  | None => false
  | Some r2 =>
  match lit "AIR" r2 with
  | None => false
  | Some r3 =>
  match spaces1 r3 with
  | None => false
  | Some r4 =>
  match lit "NEET" r4 with
  | None => false
  | Some _ => true
  end end end end end.

(** [re.match(r'^\(W\)$', s)]: [$] also matches before a final newline. *)
Definition match_W (s : string) : bool :=
  String.eqb s "(W)" || String.eqb s ("(W)" ++ String LF EmptyString).

Fixpoint skip_decimals (s : string) : string :=
  match s with
  | String c s' => if isdecimal_char c then skip_decimals s' else s
  | EmptyString => EmptyString
  end.

(** [re.match(r'^\d+:', s)]: a colon is not a digit, so the digits taken
    by [\d+] are all the leading ones. *)
Definition match_college_code (s : string) : bool :=
  match s with
  | String c s' =>
      isdecimal_char c &&
      match skip_decimals s' with
      | String d _ => Ascii.eqb d ":"
      | EmptyString => false
      end
  | EmptyString => false
  end.

End Regex.

Import Regex.

(** The string tests are kept folded by [simpl]; closed instances are
    decided by computation. *)
Arguments isdigit : simpl never.
Arguments mem : simpl never.
Arguments strip : simpl never.
Arguments join : simpl never.
Arguments startswith : simpl never.
Arguments contains : simpl never.
Arguments match_W : simpl never.
Arguments match_college_code : simpl never.
Arguments match_table_start : simpl never.

(* ===================================================================== *)
(** * Exceptions *)
(* ===================================================================== *)

Inductive exn : Type :=
| IndexError   (* a subscript out of range *)
| Diverged.    (* a [while] loop still running when its fuel is spent *)

Inductive result (A : Type) : Type :=
| Ok (a : A)
| Raise (e : exn).

Arguments Ok {A} a.
Arguments Raise {A} e.

Definition bind {A B : Type} (m : result A) (k : A -> result B) : result B :=
  match m with
  | Ok a => k a
  | Raise e => Raise e
  end.

Notation "x <- m ;; k" := (bind m (fun x => k))
  (at level 61, m at next level, right associativity).
Notation "' pat <- m ;; k" := (bind m (fun x => match x with pat => k end))
  (at level 61, pat pattern, m at next level, right associativity).

(** Python's short-circuit [a and b], where evaluating [b] may raise. *)
Definition and_then (a : bool) (b : result bool) : result bool :=
  if a then b else Ok false.

Notation "a &&> b" := (and_then a b) (at level 55, right associativity).

(** [parts[idx]] *)
Definition getitem (parts : list string) (idx : nat) : result string :=
  match nth_error parts idx with
  | Some p => Ok p
  | None => Raise IndexError
  end.

(** [len(parts)] *)
Definition len (parts : list string) : nat := List.length parts.

(* ===================================================================== *)
(** * Data model *)
(* ===================================================================== *)

(** One parsed table row.  The source builds it as a dict; every path that
    reaches [data.append(row)] has set exactly these ten keys, which are
    also the columns of the returned frame. *)
Record Row : Type := mkRow {
  Sr_No : string;
  AIR : string;
  NEET_Roll_No : string;
  CET_Form_No : string;
  Name : string;
  Gender : string;
  Category : string;
  Quota : string;
  College_Code : string;
  College_Name : string
}.

Definition VALID_CATEGORIES : list string :=
  ["OBC"; "SC"; "ST"; "SEBC"; "NTC"; "NTD"; "NTB"; "SBC"; "EWS"; "HA"; "VJA";
   "SOBC"; "D1"; "D2"; "D3"; "PWD"; "ORP-C"].

(** The literal set [{'D1', 'D2', 'D3', 'PWD', 'ORP-C'}] of line 156 *)
Definition SUB_CODES : list string := ["D1"; "D2"; "D3"; "PWD"; "ORP-C"].

(** The literal list [['M', 'F']] *)
Definition GENDERS : list string := ["M"; "F"].

(* ===================================================================== *)
(** * Field extractor (lines 84-191) *)
(* ===================================================================== *)

(** One of the four mandatory numeric fields:
    [if idx < len(parts) and parts[idx].isdigit(): row[k] = parts[idx]; idx += 1]
    [else: continue].  [None] is the [continue]. *)
Definition numeric_field (parts : list string) (idx : nat)
  : result (option (string * nat)) :=
  c <- (idx <? len parts) &&> (p <- getitem parts idx ;; Ok (isdigit p)) ;;
  if c then v <- getitem parts idx ;; Ok (Some (v, idx + 1))
  else Ok None.

(** The two [while] loops of the extractor have one shape,
    [while idx < len(parts) and not stop(parts[idx]):]
    [    acc.append(parts[idx]); idx += 1],
    and differ in the test [stop] only. *)
Fixpoint collect_until (stop : string -> bool) (fuel : nat)
    (parts : list string) (idx : nat) (acc : list string)
  : result (nat * list string) :=
  match fuel with
  | O => Raise Diverged
  | S fuel' =>
      c <- (idx <? len parts) &&> (p <- getitem parts idx ;; Ok (negb (stop p))) ;;
      if c then
        p <- getitem parts idx ;;
        collect_until stop fuel' parts (idx + 1) (acc ++ [p])
      else Ok (idx, acc)
  end.

(** [while idx < len(parts) and parts[idx] not in ['M', 'F']:]
    [    name_parts.append(parts[idx]); idx += 1] *)
Definition name_loop : nat -> list string -> nat -> list string ->
                       result (nat * list string) :=
  collect_until (fun p => mem p GENDERS).

(** Lines 139-143 *)
Definition gender_field (parts : list string) (idx : nat)
  : result (string * nat) :=
  c <- (idx <? len parts) &&> (p <- getitem parts idx ;; Ok (mem p GENDERS)) ;;
  if c then g <- getitem parts idx ;; Ok (g, idx + 1)
  else Ok (EmptyString, idx).

(** Lines 147-159; the result is [(row['Category'], idx)]. *)
Definition category_field (parts : list string) (idx : nat)
  : result (string * nat) :=
  c <- (idx <? len parts) &&> (p <- getitem parts idx ;; Ok (mem p VALID_CATEGORIES)) ;;
  '(cat, idx) <-
    (if c then
       w <- (idx + 1 <? len parts) &&> (q <- getitem parts (idx + 1) ;; Ok (match_W q)) ;;
       if w then Ok (EmptyString, idx)
       else
         cat <- getitem parts idx ;;
         let idx := idx + 1 in
         s <- (idx <? len parts) &&>
              (q <- getitem parts idx ;;
               Ok (mem q SUB_CODES && negb (mem cat SUB_CODES))) ;;
         if s then q <- getitem parts idx ;; Ok ((cat ++ " " ++ q)%string, idx + 1)
         else Ok (cat, idx)
     else Ok (EmptyString, idx)) ;;
  Ok (strip cat, idx).

(** [while idx < len(parts) and not re.match(r'^\d+:', parts[idx]):]
    [    quota_parts.append(parts[idx]); idx += 1] *)
Definition quota_loop : nat -> list string -> nat -> list string ->
                        result (nat * list string) :=
  collect_until match_college_code.

(** Lines 167-169 *)
Definition normalize_quota (quota_parts : list string) : string :=
  let quota := join quota_parts in
  if startswith quota "Choice" then "Choice Not Available" else quota.

(** Lines 174-180; [parts[idx:]] is [skipn idx parts], a slice never
    raises. *)
Definition college_fields (parts : list string) (idx : nat)
  : string * string :=
  if idx <? len parts then
    match split_once ":" (join (skipn idx parts)) with
    | [code; name] => (strip code, strip name)
    | _ => (EmptyString, EmptyString)
    end
  else (EmptyString, EmptyString).

(** The body of [if in_table:] after the tokens are split: [Ok None] is a
    [continue] (the row is rejected), [Ok (Some row)] reaches
    [data.append(row)].  The loops get [len(parts) + 1] units of fuel. *)
Definition extract_row (parts : list string) : result (option Row) :=
  reject <- (if negb (0 <? len parts) then Ok true
             else p <- getitem parts 0 ;; Ok (negb (isdigit p))) ;;
  if reject then Ok None else
  let idx := 0 in
  f <- numeric_field parts idx ;;
  match f with None => Ok None | Some (sr_no, idx) =>
  f <- numeric_field parts idx ;;
  match f with None => Ok None | Some (air, idx) =>
  f <- numeric_field parts idx ;;
  match f with None => Ok None | Some (roll_no, idx) =>
  f <- numeric_field parts idx ;;
  match f with None => Ok None | Some (form_no, idx) =>
  '(idx, name_parts) <- name_loop (S (len parts)) parts idx [] ;;
  '(gender, idx) <- gender_field parts idx ;;
  '(category, idx) <- category_field parts idx ;;
  '(idx, quota_parts) <- quota_loop (S (len parts)) parts idx [] ;;
  let '(college_code, college_name) := college_fields parts idx in
  Ok (Some {| Sr_No := sr_no; AIR := air; NEET_Roll_No := roll_no;
              CET_Form_No := form_no; Name := join name_parts;
              Gender := gender; Category := category;
              Quota := normalize_quota quota_parts;
              College_Code := college_code;
              College_Name := college_name |})
  end end end end.

(* ===================================================================== *)
(** * Line classifier and main loop (lines 27-82, 193-194) *)
(* ===================================================================== *)

Record State : Type := mkState {
  in_table : bool;
  skip_next_line : bool;
  data : list Row
}.

Definition set_data (st : State) (d : list Row) : State :=
  {| in_table := in_table st; skip_next_line := skip_next_line st; data := d |}.

(** The condition of line 45 *)
Definition is_table_start (line : string) : bool :=
  match_table_start line || contains "Sr.     AIR     NEET" line.

(** The prefix list of line 65 *)
Definition NOISE_PREFIXES : list string :=
  ["GOVERNMENT"; "Note:"; "Admissions"; "SELECTION"; "Printed"; "I.Q.:"].

(** One iteration of [for i, line in enumerate(lines):]; every [continue]
    and the fall-through at the end of the body return the next state. *)
Definition loop_body (st : State) (line : string) : result State :=
  let line := strip line in
  if is_empty line then Ok st
  else if is_table_start line then
    Ok {| in_table := true; skip_next_line := true; data := data st |}
  else if skip_next_line st then
    Ok {| in_table := in_table st; skip_next_line := false; data := data st |}
  else if contains "Legends :" line then
    Ok {| in_table := false; skip_next_line := skip_next_line st; data := data st |}
  else if negb (in_table st) && existsb (startswith line) NOISE_PREFIXES then Ok st
  else if contains "Current Selection Details" line then Ok st
  else if startswith line "----" || startswith line "====" then Ok st
  else if in_table st then
    r <- extract_row (split line) ;;
    match r with
    | None => Ok st
    | Some row => Ok (set_data st (data st ++ [row]))
    end
  else Ok st.

Fixpoint for_lines (lines : list string) (st : State) : result State :=
  match lines with
  | [] => Ok st
  | line :: rest => st' <- loop_body st line ;; for_lines rest st'
  end.

Definition initial_state : State :=
  {| in_table := false; skip_next_line := false; data := [] |}.

(** [parse_text_file(text)]: the rows of the returned frame, in order. *)
Definition parse_text_file (text : string) : result (list Row) :=
  st <- for_lines (split_on LF text) initial_state ;;
  Ok (data st).

(* ===================================================================== *)
(** * The extractor as a function of the tokens still to read *)
(* ===================================================================== *)

(** The cursor [idx] only moves forward over an immutable [parts], so what
    the extractor does next is a function of [parts[idx:]].  The functions
    of this module take that suffix and return the field together with the
    suffix left; [Cursor.extract_row_tokens] relates them to the indexed
    code above. *)
Module Tokens.

(** The longest prefix none of whose elements satisfies [stop], and the
    rest. *)
Fixpoint break (stop : string -> bool) (ts : list string)
  : list string * list string :=
  match ts with
  | [] => ([], [])
  | t :: ts' =>
      if stop t then ([], ts)
      else let '(a, b) := break stop ts' in (t :: a, b)
  end.

Definition numeric (ts : list string) : option (string * list string) :=
  match ts with
  | t :: ts' => if isdigit t then Some (t, ts') else None
  | [] => None
  end.

Definition gender (ts : list string) : string * list string :=
  match ts with
  | t :: ts' => if mem t GENDERS then (t, ts') else (EmptyString, ts)
  | [] => (EmptyString, [])
  end.

Definition category (ts : list string) : string * list string :=
  match ts with
  | c :: ts' =>
      if mem c VALID_CATEGORIES then
        match ts' with
        | q :: ts'' =>
            if match_W q then (EmptyString, ts)
            else if mem q SUB_CODES && negb (mem c SUB_CODES)
                 then (strip (c ++ " " ++ q), ts'')
                 else (strip c, ts')
        | [] => (strip c, [])
        end
      else (EmptyString, ts)
  | [] => (EmptyString, [])
  end.

Definition college (ts : list string) : string * string :=
  match ts with
  | [] => (EmptyString, EmptyString)
  | _ :: _ =>
      match split_once ":" (join ts) with
      | [code; name] => (strip code, strip name)
      | _ => (EmptyString, EmptyString)
      end
  end.

(** The tokens at the category position: what follows the four numbers,
    the name and the gender. *)
Definition at_category (ts : list string) : list string :=
  snd (gender (snd (break (fun p => mem p GENDERS) ts))).

(** The tokens the Quota field consumes, given those at the category
    position. *)
Definition quota_tokens (ts : list string) : list string :=
  fst (break match_college_code (snd (category ts))).

Definition fields (ts : list string) (sr_no air roll_no form_no : string) : Row :=
  let '(name_parts, ts) := break (fun p => mem p GENDERS) ts in
  let '(g, ts) := gender ts in
  let '(cat, ts) := category ts in
  let '(quota_parts, ts) := break match_college_code ts in
  let '(code, name) := college ts in
  {| Sr_No := sr_no; AIR := air; NEET_Roll_No := roll_no;
     CET_Form_No := form_no; Name := join name_parts;
     Gender := g; Category := cat;
     Quota := normalize_quota quota_parts;
     College_Code := code; College_Name := name |}.

Definition row (parts : list string) : option Row :=
  match numeric parts with None => None | Some (sr_no, ts) =>
  match numeric ts with None => None | Some (air, ts) =>
  match numeric ts with None => None | Some (roll_no, ts) =>
  match numeric ts with None => None | Some (form_no, ts) =>
  Some (fields ts sr_no air roll_no form_no)
  end end end end.

End Tokens.

(** One iteration of the main loop with the extractor replaced by the
    token function: the state after the line, no exception in sight.
    [Loop.loop_body_next] shows that [loop_body] returns exactly this. *)
Definition next_state (st : State) (raw : string) : State :=
  let line := strip raw in
  if is_empty line then st
  else if is_table_start line then
    {| in_table := true; skip_next_line := true; data := data st |}
  else if skip_next_line st then
    {| in_table := in_table st; skip_next_line := false; data := data st |}
  else if contains "Legends :" line then
    {| in_table := false; skip_next_line := skip_next_line st; data := data st |}
  else if negb (in_table st) && existsb (startswith line) NOISE_PREFIXES then st
  else if contains "Current Selection Details" line then st
  else if startswith line "----" || startswith line "====" then st
  else if in_table st then
    match Tokens.row (split line) with
    | None => st
    | Some r => set_data st (data st ++ [r])
    end
  else st.

(* ===================================================================== *)
(** * Vocabulary of the properties *)
(* ===================================================================== *)

Definition no_newline (s : string) : Prop :=
  all_chars (fun c => negb (Ascii.eqb c LF)) s = true.

(** [a] and [b] on two consecutive lines *)
Definition on_lines (a b : string) : string := a ++ String LF b.

(** A header-marker line: the stripped line passes the test of line 45. *)
Definition is_header (raw : string) : bool := is_table_start (strip raw).

(** A blank line: nothing is left of it once stripped. *)
Definition is_blank (raw : string) : bool := is_empty (strip raw).

(** A line that contains the table-end marker. *)
Definition has_legends (raw : string) : bool := contains "Legends :" (strip raw).

(** The lines the classifier hands to the field extractor when the table
    is open and no skip is pending: those caught by none of the tests of
    lines 37-80. *)
Definition is_candidate (raw : string) : bool :=
  let line := strip raw in
  negb (is_empty line) && negb (is_table_start line)
  && negb (contains "Legends :" line)
  && negb (contains "Current Selection Details" line)
  && negb (startswith line "----" || startswith line "====").

(** The tokens of a raw line, as line 84 computes them. *)
Definition tokens (raw : string) : list string := split (strip raw).

(** How many all-digit tokens the list begins with. *)
Fixpoint leading_numeric (parts : list string) : nat :=
  match parts with
  | t :: ts => if isdigit t then S (leading_numeric ts) else O
  | [] => O
  end.

(** The state in which the table is open and no skip is pending. *)
Definition reading (st : State) : Prop :=
  in_table st = true /\ skip_next_line st = false.

(** [line] appended one record: the state differs by that record only. *)
Definition emits (st : State) (line : string) (r : Row) : Prop :=
  loop_body st line = Ok (set_data st (data st ++ [r])).

(** The state outside the table, with no skip pending, holding [d]. *)
Definition closed_with (d : list Row) : State :=
  {| in_table := false; skip_next_line := false; data := d |}.

(** The tokens at the category position of a row: what follows the four
    numbers, the name and the gender. *)
Definition category_position (parts : list string) : list string :=
  Tokens.at_category (skipn 4 parts).

(** The Quota token sequence of a row: the tokens from the end of the
    category up to the first one shaped like a college code, or to the end
    of the line. *)
Definition quota_sequence (parts : list string) : list string :=
  Tokens.quota_tokens (category_position parts).

(** A row satisfying the implication of C10. *)
Definition gender_gates_rest (r : Row) : Prop :=
  Gender r = EmptyString ->
  Category r = EmptyString /\ Quota r = EmptyString /\
  College_Code r = EmptyString /\ College_Name r = EmptyString.

(** The lines of the end-to-end scenario of the specification. *)
Module Scenario.

Definition header_stem : string := "Sr.     AIR     NEET Roll No".

(** A header line: the stem, a full stop, and whatever the rest of the
    heading is. *)
Definition header (more : string) : string :=
  (header_stem ++ String "." more)%string.

(** The header line that ends right after the stem. *)
Definition bare_header : string := header EmptyString.

Definition data_line : string :=
  "1 500 123456 7890 JOHN DOE M OBC State 1001:Govt Medical College".

Definition legends : string := "Legends :".

Definition expected : Row :=
  {| Sr_No := "1"; AIR := "500"; NEET_Roll_No := "123456";
     CET_Form_No := "7890"; Name := "JOHN DOE"; Gender := "M";
     Category := "OBC"; Quota := "State"; College_Code := "1001";
     College_Name := "Govt Medical College" |}.

End Scenario.

(* ===================================================================== *)
(** * Log tail ([read_logs], lines 204-211) *)
(* ===================================================================== *)

Module Logs.





End Logs.

(* ===================================================================== *)
(** * Further vocabulary *)
(* ===================================================================== *)

(** A string of whitespace characters only. *)
Definition all_space (w : string) : Prop := all_chars isspace w = true.

(** [b] is [a] with whitespace added in front and behind. *)
Definition padded (a b : string) : Prop :=
  exists w1 w2, all_space w1 /\ all_space w2 /\ b = (w1 ++ a ++ w2)%string.

(** A line that has the shape of a data row: a candidate for the extractor
    with four leading numbers. *)
Definition is_row_line (raw : string) : bool :=
  is_candidate raw && (4 <=? leading_numeric (tokens raw)).

(** A string of decimal digits. *)
Definition all_decimal (s : string) : Prop := all_chars isdecimal_char s = true.

(** A string without a colon. *)
Definition no_colon (s : string) : Prop :=
  all_chars (fun c => negb (Ascii.eqb c ":")) s = true.

(** The carriage return, ['\r'] *)
Definition CR : ascii := "013"%char.

(** The lines joined by line feeds, and by carriage return + line feed. *)
Definition unlines_lf (lines : list string) : string :=
  String.concat (String LF EmptyString) lines.

Definition unlines_crlf (lines : list string) : string :=
  String.concat (String CR (String LF EmptyString)) lines.

(** A one-page report: header, sub-header, one data row, table end. *)
Definition sample_page : string :=
  on_lines Scenario.bare_header
    (on_lines "sub-header" (on_lines Scenario.data_line Scenario.legends)).

(** A token: at least one character, none of them whitespace. *)
Definition is_token (t : string) : bool :=
  negb (is_empty t) && all_chars (fun c => negb (isspace c)) t.

(** A text in which words are separated by single spaces, with no
    whitespace in front or behind: splitting and joining gives it back. *)
Definition single_spaced (s : string) : Prop := join (split s) = s.

(** The values the Category field can take. *)
Definition category_value (cat : string) : Prop :=
  cat = EmptyString \/ mem cat VALID_CATEGORIES = true \/
  exists c s, mem c VALID_CATEGORIES = true /\ mem c SUB_CODES = false /\
              mem s SUB_CODES = true /\ cat = (c ++ " " ++ s)%string.

(* ===================================================================== *)
(** * The indexed extractor computes the token function *)
(* ===================================================================== *)

Module Cursor.

Lemma skipn_cons parts : forall idx t ts,
  skipn idx parts = t :: ts ->
  (idx <? len parts) = true /\ getitem parts idx = Ok t /\
  skipn (idx + 1) parts = ts.
Proof.
  unfold len, getitem.
  induction parts as [|a parts IH]; intros [|idx] t ts H; simpl in *;
    try discriminate.
  - inversion H; subst. repeat split; reflexivity.
  - destruct (IH _ _ _ H) as (Hlt & Hget & Hrest).
    repeat split; assumption.
Qed.

Lemma skipn_nil parts : forall idx,
  skipn idx parts = [] -> (idx <? len parts) = false.
Proof.
  unfold len.
  induction parts as [|a parts IH]; intros [|idx] H; simpl in *;
    try reflexivity; try discriminate.
  apply (IH _ H).
Qed.

Ltac at_cursor parts idx :=
  let E := fresh "E" in
  let Hlt := fresh "Hlt" in
  let Hget := fresh "Hget" in
  let Hrest := fresh "Hrest" in
  destruct (skipn idx parts) eqn:E;
  [ pose proof (skipn_nil _ _ E) as Hlt
  | destruct (skipn_cons _ _ _ _ E) as (Hlt & Hget & Hrest) ].

Lemma numeric_field_tokens parts idx :
  numeric_field parts idx =
  Ok (match Tokens.numeric (skipn idx parts) with
      | Some (v, _) => Some (v, idx + 1)
      | None => None
      end).
Proof.
  unfold numeric_field, and_then, bind.
  at_cursor parts idx; simpl.
  - rewrite Hlt. reflexivity.
  - rewrite Hlt, Hget. destruct (isdigit s); reflexivity.
Qed.

Lemma numeric_rest parts idx v ts :
  Tokens.numeric (skipn idx parts) = Some (v, ts) ->
  skipn (idx + 1) parts = ts.
Proof.
  at_cursor parts idx; simpl; try discriminate.
  destruct (isdigit s); intros H; inversion H; subst. reflexivity.
Qed.

Lemma collect_until_tokens stop parts : forall ts fuel idx acc,
  skipn idx parts = ts ->
  length ts < fuel ->
  exists idx',
    collect_until stop fuel parts idx acc
      = Ok (idx', acc ++ fst (Tokens.break stop ts)) /\
    skipn idx' parts = snd (Tokens.break stop ts).
Proof.
  induction ts as [|t ts IH]; intros fuel idx acc Hs Hf;
    (destruct fuel as [|fuel]; [inversion Hf|]); simpl.
  - exists idx. unfold and_then, bind.
    rewrite (skipn_nil _ _ Hs), app_nil_r. auto.
  - destruct (skipn_cons _ _ _ _ Hs) as (Hlt & Hget & Hrest).
    unfold and_then, bind. rewrite Hlt, Hget.
    destruct (stop t) eqn:Ht; simpl.
    + exists idx. rewrite app_nil_r. auto.
    + simpl in Hf. apply PeanoNat.lt_S_n in Hf.
      destruct (IH fuel (idx + 1) (acc ++ [t]) Hrest Hf) as (idx' & Hrun & Hsk).
      exists idx'. rewrite Hrun.
      destruct (Tokens.break stop ts) as [a b]; simpl in *.
      rewrite <- app_assoc. auto.
Qed.

Lemma skipn_length_le (parts : list string) idx :
  length (skipn idx parts) <= len parts.
Proof. unfold len. rewrite length_skipn. lia. Qed.

Lemma gender_field_tokens parts idx :
  exists idx',
    gender_field parts idx = Ok (fst (Tokens.gender (skipn idx parts)), idx') /\
    skipn idx' parts = snd (Tokens.gender (skipn idx parts)).
Proof.
  unfold gender_field, and_then, bind.
  at_cursor parts idx; simpl.
  - rewrite Hlt. exists idx. simpl. auto.
  - rewrite Hlt, Hget. destruct (mem s GENDERS); simpl.
    + exists (idx + 1). simpl. auto.
    + exists idx. simpl. auto.
Qed.

Lemma category_field_tokens parts idx :
  exists idx',
    category_field parts idx = Ok (fst (Tokens.category (skipn idx parts)), idx') /\
    skipn idx' parts = snd (Tokens.category (skipn idx parts)).
Proof.
  unfold category_field, and_then, bind.
  at_cursor parts idx; simpl.
  - rewrite Hlt. exists idx. simpl. auto.
  - rewrite Hlt, Hget. destruct (mem s VALID_CATEGORIES); simpl.
    2:{ exists idx. simpl. auto. }
    subst l. at_cursor parts (idx + 1).
    + rewrite Hlt0. simpl. exists (idx + 1). simpl. auto.
    + rewrite Hlt0, Hget0. destruct (match_W s0); simpl.
      * exists idx. simpl. auto.
      * destruct (mem s0 SUB_CODES && negb (mem s SUB_CODES)); simpl.
        -- exists (idx + 1 + 1). simpl. auto.
        -- exists (idx + 1). simpl. auto.
Qed.

Lemma college_fields_tokens parts idx :
  college_fields parts idx = Tokens.college (skipn idx parts).
Proof.
  unfold college_fields.
  at_cursor parts idx; rewrite Hlt; reflexivity.
Qed.

(** The indexed extractor never raises, and its result is the token
    function of the whole list. *)
Lemma extract_row_tokens parts : extract_row parts = Ok (Tokens.row parts).
Proof.
  unfold extract_row, Tokens.row.
  assert (H0 : skipn 0 parts = parts) by reflexivity.
  assert (Hrej :
    (if negb (0 <? len parts) then Ok true
     else bind (getitem parts 0) (fun p => Ok (negb (isdigit p))))
    = Ok (match Tokens.numeric parts with Some _ => false | None => true end)).
  { destruct parts as [|p parts]; simpl; [reflexivity|].
    destruct (isdigit p); reflexivity. }
  rewrite Hrej. unfold bind at 1.
  destruct (Tokens.numeric parts) as [[sr ts1]|] eqn:N1; [|reflexivity].
  rewrite numeric_field_tokens. simpl skipn. rewrite N1. unfold bind at 1.
  pose proof (numeric_rest parts 0 _ _ N1) as R1.
  rewrite numeric_field_tokens, R1. unfold bind at 1.
  destruct (Tokens.numeric ts1) as [[air ts2]|] eqn:N2; [|reflexivity].
  rewrite <- R1 in N2. pose proof (numeric_rest _ _ _ _ N2) as R2.
  rewrite numeric_field_tokens, R2. unfold bind at 1.
  destruct (Tokens.numeric ts2) as [[roll ts3]|] eqn:N3; [|reflexivity].
  rewrite <- R2 in N3. pose proof (numeric_rest _ _ _ _ N3) as R3.
  rewrite numeric_field_tokens, R3. unfold bind at 1.
  destruct (Tokens.numeric ts3) as [[form ts4]|] eqn:N4; [|reflexivity].
  rewrite <- R3 in N4. pose proof (numeric_rest _ _ _ _ N4) as R4.
  unfold name_loop, quota_loop, Tokens.fields.
  destruct (collect_until_tokens (fun p => mem p GENDERS) parts ts4
              (S (len parts)) _ [] R4) as (i1 & L1 & S1).
  { rewrite <- R4. pose proof (skipn_length_le parts (0 + 1 + 1 + 1 + 1)). lia. }
  rewrite L1. unfold bind at 1.
  destruct (Tokens.break (fun p => mem p GENDERS) ts4) as [name_parts ts5].
  simpl in S1. simpl fst.
  destruct (gender_field_tokens parts i1) as (i2 & L2 & S2).
  rewrite L2, S1. rewrite S1 in S2. unfold bind at 1.
  destruct (Tokens.gender ts5) as [g ts6]. simpl in S2. simpl fst.
  destruct (category_field_tokens parts i2) as (i3 & L3 & S3).
  rewrite L3, S2. rewrite S2 in S3. unfold bind at 1.
  destruct (Tokens.category ts6) as [cat ts7]. simpl in S3. simpl fst.
  destruct (collect_until_tokens match_college_code parts ts7
              (S (len parts)) i3 [] S3) as (i4 & L4 & S4).
  { rewrite <- S3. pose proof (skipn_length_le parts i3). lia. }
  rewrite L4. unfold bind at 1.
  destruct (Tokens.break match_college_code ts7) as [quota_parts ts8].
  simpl in S4. simpl fst.
  rewrite college_fields_tokens, S4.
  destruct (Tokens.college ts8). reflexivity.
Qed.

End Cursor.

(* ===================================================================== *)
(** * The main loop, line by line *)
(* ===================================================================== *)

Module Loop.

Lemma loop_body_next st raw : loop_body st raw = Ok (next_state st raw).
Proof.
  unfold loop_body, next_state.
  repeat match goal with
         | |- (if ?c then _ else _) = Ok (if ?c then _ else _) =>
             destruct c; [reflexivity|]
         end.
  destruct (in_table st); [|reflexivity].
  rewrite Cursor.extract_row_tokens. unfold bind.
  destruct (Tokens.row _); reflexivity.
Qed.

Lemma for_lines_fold lines : forall st,
  for_lines lines st = Ok (fold_left next_state lines st).
Proof.
  induction lines as [|l lines IH]; intros st; simpl; [reflexivity|].
  rewrite loop_body_next. unfold bind. apply IH.
Qed.

Lemma for_lines_app pre post st st' :
  for_lines pre st = Ok st' ->
  for_lines (pre ++ post) st = for_lines post st'.
Proof.
  rewrite !for_lines_fold, fold_left_app. intros H.
  inversion H; subst. reflexivity.
Qed.

Lemma header_not_blank raw : is_header raw = true -> is_blank raw = false.
Proof.
  unfold is_header, is_blank. destruct (strip raw); [|reflexivity].
  vm_compute. intros H; discriminate H.
Qed.

Lemma legends_not_blank raw : has_legends raw = true -> is_blank raw = false.
Proof.
  unfold has_legends, is_blank. destruct (strip raw); [|reflexivity].
  vm_compute. intros H; discriminate H.
Qed.

Lemma next_blank st raw : is_blank raw = true -> next_state st raw = st.
Proof. unfold is_blank, next_state. intros ->. reflexivity. Qed.

Lemma next_header st raw :
  is_header raw = true ->
  next_state st raw =
  {| in_table := true; skip_next_line := true; data := data st |}.
Proof.
  intros H. pose proof (header_not_blank _ H) as B.
  unfold is_header, is_blank in *. unfold next_state. rewrite B, H. reflexivity.
Qed.

Lemma next_skipped st raw :
  is_blank raw = false -> is_header raw = false ->
  skip_next_line st = true ->
  next_state st raw =
  {| in_table := in_table st; skip_next_line := false; data := data st |}.
Proof.
  unfold is_header, is_blank, next_state. intros -> -> ->. reflexivity.
Qed.

Lemma next_legends st raw :
  is_header raw = false -> skip_next_line st = false ->
  has_legends raw = true ->
  next_state st raw =
  {| in_table := false; skip_next_line := false; data := data st |}.
Proof.
  intros H K L. pose proof (legends_not_blank _ L) as B.
  unfold is_header, is_blank, has_legends in *. unfold next_state.
  rewrite B, H, K, L. reflexivity.
Qed.

Lemma next_candidate st raw :
  reading st -> is_candidate raw = true ->
  next_state st raw =
  match Tokens.row (tokens raw) with
  | None => st
  | Some r => set_data st (data st ++ [r])
  end.
Proof.
  intros [T K] C. unfold is_candidate in C. unfold next_state, tokens.
  repeat (apply andb_prop in C; destruct C as [C ?]).
  repeat match goal with
         | H : negb _ = true |- _ => apply negb_true_iff in H; rewrite H
         end.
  rewrite K, T. reflexivity.
Qed.

(** Outside the table, with no skip pending, a line that is not a header
    leaves the state as it is. *)
Lemma next_idle d raw :
  is_header raw = false -> next_state (closed_with d) raw = closed_with d.
Proof.
  unfold is_header, next_state, closed_with. intros ->. simpl.
  repeat match goal with
         | |- context [if ?c then _ else _] => destruct c; try reflexivity
         end.
Qed.

Lemma fold_idle lines : forall d,
  Forall (fun l => is_header l = false) lines ->
  fold_left next_state lines (closed_with d) = closed_with d.
Proof.
  induction lines as [|l lines IH]; intros d F; simpl; [reflexivity|].
  inversion F; subst. rewrite next_idle by assumption. apply IH. assumption.
Qed.

End Loop.

(* ===================================================================== *)
(** * Texts and their lines *)
(* ===================================================================== *)

Module Lines.

Lemma split_on_single s : no_newline s -> split_on LF s = [s].
Proof.
  unfold no_newline.
  induction s as [|c s IH]; simpl; intros H; [reflexivity|].
  apply andb_prop in H. destruct H as [Hc Hs].
  apply negb_true_iff in Hc. rewrite Hc, (IH Hs). reflexivity.
Qed.

Lemma split_on_lines a b :
  no_newline a -> split_on LF (on_lines a b) = a :: split_on LF b.
Proof.
  unfold no_newline, on_lines.
  induction a as [|c a IH]; simpl; intros H.
  - reflexivity.
  - apply andb_prop in H. destruct H as [Hc Hs].
    apply negb_true_iff in Hc. rewrite Hc, (IH Hs). reflexivity.
Qed.

Lemma no_newline_app a b : no_newline a -> no_newline b -> no_newline (a ++ b).
Proof.
  unfold no_newline. induction a as [|c a IH]; simpl; intros Ha Hb; [assumption|].
  apply andb_prop in Ha. destruct Ha as [Hc Ha]. rewrite Hc. simpl. auto.
Qed.

(** Stripping on the right stops at a non-whitespace character. *)
Lemma rstrip_app p c s :
  isspace c = false -> exists r, rstrip (p ++ String c s) = (p ++ String c r)%string.
Proof.
  intros Hc. induction p as [|a p IH]; simpl.
  - rewrite Hc. destruct (rstrip s) as [|d r]; eauto.
  - destruct IH as [r IH]. rewrite IH. exists r.
    destruct p; reflexivity.
Qed.

Lemma scenario_header_is_header more : is_header (Scenario.header more) = true.
Proof.
  unfold is_header, strip, Scenario.header.
  change (lstrip (Scenario.header_stem ++ String "." more))
    with (Scenario.header_stem ++ String "." more)%string.
  destruct (rstrip_app Scenario.header_stem "." more eq_refl) as [r ->].
  reflexivity.
Qed.

End Lines.

(* ===================================================================== *)
(** * Facts about the token function *)
(* ===================================================================== *)

Module TokenFacts.

Lemma row_short parts : leading_numeric parts < 4 -> Tokens.row parts = None.
Proof.
  unfold Tokens.row, Tokens.numeric.
  destruct parts as [|d1 [|d2 [|d3 [|d4 ts]]]]; simpl;
    repeat match goal with
           | |- context [isdigit ?d] => destruct (isdigit d); simpl
           end; intros H; try reflexivity; lia.
Qed.

Lemma row_long parts :
  4 <= leading_numeric parts ->
  exists d1 d2 d3 d4 ts,
    parts = d1 :: d2 :: d3 :: d4 :: ts /\
    Tokens.row parts = Some (Tokens.fields ts d1 d2 d3 d4).
Proof.
  unfold Tokens.row, Tokens.numeric.
  destruct parts as [|d1 [|d2 [|d3 [|d4 ts]]]]; simpl;
    repeat match goal with
           | |- context [isdigit ?d] => destruct (isdigit d); simpl
           end; intros H; try lia.
  exists d1, d2, d3, d4, ts. split; reflexivity.
Qed.

Lemma break_app stop name g ts :
  Forall (fun t => stop t = false) name -> stop g = true ->
  Tokens.break stop (name ++ g :: ts) = (name, g :: ts).
Proof.
  intros F G. induction F as [|t name Ht F IH]; simpl.
  - rewrite G. reflexivity.
  - rewrite Ht, IH. reflexivity.
Qed.

(** What [break] leaves is empty or begins with a token that stops it. *)
Lemma break_rest stop ts :
  match snd (Tokens.break stop ts) with
  | [] => True
  | t :: _ => stop t = true
  end.
Proof.
  induction ts as [|t ts IH]; simpl; [exact I|].
  destruct (stop t) eqn:Ht; simpl; [exact Ht|].
  destruct (Tokens.break stop ts); exact IH.
Qed.

(** [break] cuts the list in two: a front no token of which stops it, and
    a rest that is empty or begins with a token that does. *)
Lemma break_spec stop ts :
  ts = fst (Tokens.break stop ts) ++ snd (Tokens.break stop ts) /\
  Forall (fun t => stop t = false) (fst (Tokens.break stop ts)).
Proof.
  induction ts as [|t ts [IH1 IH2]]; simpl; [split; [reflexivity|constructor]|].
  destruct (stop t) eqn:Ht; simpl; [split; [reflexivity|constructor]|].
  destruct (Tokens.break stop ts) as [a b]; simpl in *.
  split; [congruence | constructor; assumption].
Qed.

(** The Quota token sequence is the front of what follows the category:
    none of its tokens is shaped like a college code, and it ends at the
    first token that is, or at the end of the line. *)
Lemma quota_tokens_spec ts :
  exists rest,
    snd (Tokens.category ts) = Tokens.quota_tokens ts ++ rest /\
    Forall (fun t => match_college_code t = false) (Tokens.quota_tokens ts) /\
    match rest with
    | [] => True
    | t :: _ => match_college_code t = true
    end.
Proof.
  unfold Tokens.quota_tokens.
  exists (snd (Tokens.break match_college_code (snd (Tokens.category ts)))).
  destruct (break_spec match_college_code (snd (Tokens.category ts))) as [E F].
  repeat split; [exact E | exact F | apply break_rest].
Qed.

(** The fields of a row with a gender token, read off the tokens [ts] at
    the category position. *)
Lemma fields_with_gender name g ts d1 d2 d3 d4 :
  Forall (fun t => mem t GENDERS = false) name -> mem g GENDERS = true ->
  let r := Tokens.fields (name ++ g :: ts) d1 d2 d3 d4 in
  Name r = join name /\ Gender r = g /\
  Category r = fst (Tokens.category ts) /\
  Quota r = normalize_quota (Tokens.quota_tokens ts) /\
  Tokens.at_category (name ++ g :: ts) = ts.
Proof.
  intros F G. unfold Tokens.fields, Tokens.at_category, Tokens.quota_tokens.
  rewrite (break_app _ _ _ _ F G). simpl. rewrite G. simpl.
  destruct (Tokens.category ts) as [cat ts1]. simpl.
  destruct (Tokens.break match_college_code ts1) as [q ts2]. simpl.
  destruct (Tokens.college ts2). simpl. auto.
Qed.

(** The category position of a row with a gender token. *)
Lemma category_position_shape d1 d2 d3 d4 name g ts :
  Forall (fun t => mem t GENDERS = false) name -> mem g GENDERS = true ->
  category_position (d1 :: d2 :: d3 :: d4 :: name ++ g :: ts) = ts.
Proof.
  intros F G. unfold category_position. simpl skipn.
  apply (fields_with_gender name g ts d1 d2 d3 d4 F G).
Qed.

Lemma fields_quota ts d1 d2 d3 d4 :
  Quota (Tokens.fields ts d1 d2 d3 d4)
  = normalize_quota (Tokens.quota_tokens (Tokens.at_category ts)).
Proof.
  unfold Tokens.fields, Tokens.at_category, Tokens.quota_tokens.
  destruct (Tokens.break _ ts) as [n ts0]. simpl.
  destruct (Tokens.gender ts0) as [g ts1]. simpl.
  destruct (Tokens.category ts1) as [cat ts2]. simpl.
  destruct (Tokens.break match_college_code ts2) as [q ts3]. simpl.
  destruct (Tokens.college ts3). reflexivity.
Qed.

Lemma gender_token g : mem g GENDERS = true -> g <> EmptyString.
Proof. intros H E. subst g. discriminate H. Qed.

(** Without a gender nothing is left to read. *)
Lemma fields_no_gender ts d1 d2 d3 d4 :
  let r := Tokens.fields ts d1 d2 d3 d4 in
  Gender r = EmptyString ->
  Category r = EmptyString /\ Quota r = EmptyString /\
  College_Code r = EmptyString /\ College_Name r = EmptyString.
Proof.
  unfold Tokens.fields.
  pose proof (break_rest (fun p => mem p GENDERS) ts) as R.
  destruct (Tokens.break _ ts) as [n [|t ts0]]; simpl in *.
  - intros _. repeat split; reflexivity.
  - rewrite R. simpl.
    destruct (Tokens.category ts0) as [cat ts1].
    destruct (Tokens.break match_college_code ts1) as [q ts2].
    destruct (Tokens.college ts2). simpl.
    intros E. exfalso. exact (gender_token _ R E).
Qed.

(** The records after a line: unchanged, or one more, built by the token
    function from the tokens of the line. *)
Lemma next_data st raw :
  data (next_state st raw) = data st \/
  exists r, Tokens.row (tokens raw) = Some r /\
            next_state st raw = set_data st (data st ++ [r]).
Proof.
  unfold next_state, tokens.
  repeat match goal with
         | |- context [if ?c then _ else _] => destruct c; simpl; auto
         end.
  destruct (Tokens.row _) as [r|]; [right; eauto | left; reflexivity].
Qed.

Lemma next_data_rejected st raw :
  Tokens.row (tokens raw) = None -> data (next_state st raw) = data st.
Proof.
  intros N. destruct (next_data st raw) as [H|(r & R & _)]; [exact H|congruence].
Qed.

End TokenFacts.

(* ===================================================================== *)
(** * Properties of the parser *)
(* ===================================================================== *)

Import Loop Lines TokenFacts.

(** C1.  End-to-end scenario: a header line beginning
    [Sr.     AIR     NEET Roll No.], then a sub-header line (any line that
    is neither blank nor itself a header), then the data line
    [1 500 123456 7890 JOHN DOE M OBC State 1001:Govt Medical College],
    then [Legends :], parse to exactly one record with the ten expected
    fields. *)
Theorem C1_end_to_end (more sub : string) :
  no_newline more -> no_newline sub ->
  is_blank sub = false -> is_header sub = false ->
  parse_text_file
    (on_lines (Scenario.header more)
       (on_lines sub
          (on_lines Scenario.data_line Scenario.legends)))
  = Ok [Scenario.expected].
Proof.
  intros Hmore Hsub Hblank Hhead. unfold parse_text_file.
  rewrite split_on_lines.
  2:{ unfold Scenario.header. apply no_newline_app; [reflexivity|].
      unfold no_newline in *. simpl. exact Hmore. }
  rewrite (split_on_lines sub) by assumption.
  rewrite (split_on_lines Scenario.data_line) by reflexivity.
  rewrite (split_on_single Scenario.legends) by reflexivity.
  rewrite for_lines_fold. unfold bind. simpl fold_left.
  rewrite (next_header _ _ (scenario_header_is_header more)).
  rewrite (next_skipped _ sub) by (assumption || reflexivity).
  reflexivity.
Qed.

Lemma C1_end_to_end_witness :
  parse_text_file
    (on_lines (Scenario.header " ...")
       (on_lines "No.     Rank    Roll No.    Form No.    Name    G    Cat    Quota    College"
          (on_lines Scenario.data_line Scenario.legends)))
  = Ok [Scenario.expected].
Proof.
  apply (C1_end_to_end " ..."
           "No.     Rank    Roll No.    Form No.    Name    G    Cat    Quota    College");
    reflexivity.
Defined.

(** C2, as stated, fails: a [Legends :] line that immediately follows a
    header line is consumed by the pending skip, the table stays open, and
    the next line yields a record. *)
Lemma C2_counterexample :
  let lines := [Scenario.bare_header; Scenario.legends; Scenario.data_line] in
  has_legends (nth 1 lines EmptyString) = true /\
  is_header (nth 2 lines EmptyString) = false /\
  for_lines (firstn 2 lines) initial_state
    = Ok {| in_table := true; skip_next_line := false; data := [] |} /\
  parse_text_file
    (on_lines Scenario.bare_header (on_lines Scenario.legends Scenario.data_line))
    = Ok [Scenario.expected].
Proof. repeat split; reflexivity. Qed.

(** C2, amended.  In every text, a line containing [Legends :] that is
    not itself a header line and is read while no skip is pending closes
    the table and is discarded; every line after it and before any later
    header line is read outside the table and produces no record, and the
    parse goes on from there with the records it had before the
    [Legends :] line. *)
Theorem C2_after_legends (text : string) (pre : list string) (leg : string)
    (post rest : list string) (st : State) :
  split_on LF text = pre ++ leg :: post ++ rest ->
  for_lines pre initial_state = Ok st ->
  skip_next_line st = false ->
  is_header leg = false -> has_legends leg = true ->
  Forall (fun l => is_header l = false) post ->
  for_lines (pre ++ [leg]) initial_state = Ok (closed_with (data st)) /\
  (forall post1 l post2, post = post1 ++ l :: post2 ->
     for_lines (pre ++ leg :: post1) initial_state = Ok (closed_with (data st)) /\
     loop_body (closed_with (data st)) l = Ok (closed_with (data st))) /\
  parse_text_file text
    = (st' <- for_lines rest (closed_with (data st)) ;; Ok (data st')).
Proof.
  intros Hsplit Hpre Hskip Hhead Hleg Hpost.
  assert (Hone : forall ls, Forall (fun l => is_header l = false) ls ->
            for_lines (pre ++ leg :: ls) initial_state
            = Ok (closed_with (data st))).
  { intros ls Hls. rewrite (for_lines_app _ _ _ _ Hpre), for_lines_fold.
    simpl fold_left. rewrite (next_legends _ _ Hhead Hskip Hleg).
    fold (closed_with (data st)). rewrite (fold_idle ls _ Hls). reflexivity. }
  split; [|split].
  - apply (Hone []). constructor.
  - intros post1 l post2 E. subst post.
    apply Forall_app in Hpost. destruct Hpost as [H1 H2].
    inversion H2 as [|? ? Hl _]; subst.
    split; [apply (Hone post1 H1)|].
    rewrite loop_body_next, (next_idle _ _ Hl). reflexivity.
  - unfold parse_text_file. rewrite Hsplit.
    replace (pre ++ leg :: post ++ rest) with ((pre ++ leg :: post) ++ rest)
      by (rewrite <- app_assoc; reflexivity).
    rewrite (for_lines_app _ _ _ _ (Hone post Hpost)). reflexivity.
Qed.

Lemma C2_after_legends_witness :
  let text :=
    on_lines Scenario.bare_header
      (on_lines "sub-header"
         (on_lines Scenario.data_line
            (on_lines Scenario.legends
               (on_lines "2 501 123457 7891 JANE ROE F SC State 1002:Other College"
                  (on_lines "Note: end" Scenario.bare_header))))) in
  let pre := [Scenario.bare_header; "sub-header"; Scenario.data_line] in
  let post := ["2 501 123457 7891 JANE ROE F SC State 1002:Other College"; "Note: end"] in
  for_lines (pre ++ [Scenario.legends]) initial_state
    = Ok (closed_with [Scenario.expected]) /\
  (forall post1 l post2, post = post1 ++ l :: post2 ->
     for_lines (pre ++ Scenario.legends :: post1) initial_state
       = Ok (closed_with [Scenario.expected]) /\
     loop_body (closed_with [Scenario.expected]) l
       = Ok (closed_with [Scenario.expected])) /\
  parse_text_file text
    = (st' <- for_lines [Scenario.bare_header] (closed_with [Scenario.expected]) ;;
       Ok (data st')).
Proof.
  apply (C2_after_legends
           (on_lines Scenario.bare_header
              (on_lines "sub-header"
                 (on_lines Scenario.data_line
                    (on_lines Scenario.legends
                       (on_lines "2 501 123457 7891 JANE ROE F SC State 1002:Other College"
                          (on_lines "Note: end" Scenario.bare_header))))))
           [Scenario.bare_header; "sub-header"; Scenario.data_line]
           Scenario.legends
           ["2 501 123457 7891 JANE ROE F SC State 1002:Other College"; "Note: end"]
           [Scenario.bare_header]
           {| in_table := true; skip_next_line := false;
              data := [Scenario.expected] |});
    [reflexivity | reflexivity | reflexivity | reflexivity | reflexivity
    | repeat constructor].
Defined.

(** C3, as stated, fails: with a whitespace-only line between the header
    and a valid data line, the data line is the one the pending skip
    discards, and the parse is empty. *)
Lemma C3_counterexample :
  let blank := "   " in
  is_blank blank = true /\
  is_candidate Scenario.data_line = true /\
  extract_row (tokens Scenario.data_line) = Ok (Some Scenario.expected) /\
  for_lines [Scenario.bare_header; blank] initial_state
    = Ok {| in_table := true; skip_next_line := true; data := [] |} /\
  parse_text_file
    (on_lines Scenario.bare_header (on_lines blank Scenario.data_line))
    = Ok [].
Proof. repeat split; reflexivity. Qed.

(** C3, amended.  The pending skip set by a header line discards the first
    non-blank line after the header: a whitespace-only line is dropped as
    empty and leaves the skip pending, so in
    header / whitespace-only line / data line the data line is consumed by
    the skip and yields no record.  The skip consumes that one line only:
    a data line after it is parsed into a record. *)
Theorem C3_skip_waits_for_text (st : State) (hdr blank dl dl2 : string)
    (r2 : Row) :
  is_header hdr = true -> is_blank blank = true ->
  is_blank dl = false -> is_header dl = false ->
  is_candidate dl2 = true -> extract_row (tokens dl2) = Ok (Some r2) ->
  for_lines [hdr; blank] st
    = Ok {| in_table := true; skip_next_line := true; data := data st |} /\
  for_lines [hdr; blank; dl] st
    = Ok {| in_table := true; skip_next_line := false; data := data st |} /\
  for_lines [hdr; blank; dl; dl2] st
    = Ok {| in_table := true; skip_next_line := false;
            data := data st ++ [r2] |}.
Proof.
  intros Hh Hb Hd Hdh Hc Hr.
  rewrite !for_lines_fold. simpl fold_left.
  rewrite (next_header _ _ Hh), (next_blank _ _ Hb).
  rewrite (next_skipped _ dl) by (assumption || reflexivity).
  rewrite (next_candidate _ dl2) by (assumption || split; reflexivity).
  rewrite Cursor.extract_row_tokens in Hr. inversion Hr as [Hr'].
  rewrite Hr'. repeat split; reflexivity.
Qed.

Lemma C3_skip_waits_for_text_witness :
  let blank := "   " in
  let dl2 := "2 501 123457 7891 JANE ROE F SC State 1002:Other College" in
  let r2 := {| Sr_No := "2"; AIR := "501"; NEET_Roll_No := "123457";
               CET_Form_No := "7891"; Name := "JANE ROE"; Gender := "F";
               Category := "SC"; Quota := "State"; College_Code := "1002";
               College_Name := "Other College" |} in
  for_lines [Scenario.bare_header; blank] initial_state
    = Ok {| in_table := true; skip_next_line := true; data := [] |} /\
  for_lines [Scenario.bare_header; blank; Scenario.data_line] initial_state
    = Ok {| in_table := true; skip_next_line := false; data := [] |} /\
  for_lines [Scenario.bare_header; blank; Scenario.data_line; dl2] initial_state
    = Ok {| in_table := true; skip_next_line := false; data := [] ++ [r2] |}.
Proof.
  apply (C3_skip_waits_for_text initial_state Scenario.bare_header "   "
           Scenario.data_line
           "2 501 123457 7891 JANE ROE F SC State 1002:Other College");
    reflexivity.
Defined.

(** C4.  A line whose token list begins with fewer than four all-digit
    tokens (an empty list and a non-numeric first token included) is
    rejected by the extractor without an exception, appends no record
    whatever the state, leaves the state untouched when it is read inside
    the table, and the loop goes on with the lines that follow. *)
Theorem C4_short_row_rejected (st : State) (line : string)
    (rest : list string) :
  leading_numeric (tokens line) < 4 ->
  extract_row (tokens line) = Ok None /\
  (exists st', loop_body st line = Ok st' /\ data st' = data st /\
               for_lines (line :: rest) st = for_lines rest st') /\
  (reading st -> is_candidate line = true -> loop_body st line = Ok st).
Proof.
  intros H. pose proof (row_short _ H) as N.
  split; [|split].
  - rewrite Cursor.extract_row_tokens, N. reflexivity.
  - exists (next_state st line). simpl. rewrite loop_body_next.
    repeat split. apply (next_data_rejected _ _ N).
  - intros R C. rewrite loop_body_next, (next_candidate _ _ R C), N.
    reflexivity.
Qed.

Lemma C4_short_row_rejected_witness :
  let st := {| in_table := true; skip_next_line := false; data := [] |} in
  let line := "7 88 JOHN DOE M OBC State 1001:Govt Medical College" in
  leading_numeric (tokens line) < 4 /\
  extract_row (tokens line) = Ok None /\
  (exists st', loop_body st line = Ok st' /\ data st' = data st /\
               for_lines [line; Scenario.data_line] st
               = for_lines [Scenario.data_line] st') /\
  (reading st -> is_candidate line = true -> loop_body st line = Ok st).
Proof.
  split; [vm_compute; lia|].
  apply (C4_short_row_rejected
           {| in_table := true; skip_next_line := false; data := [] |}
           "7 88 JOHN DOE M OBC State 1001:Govt Medical College"
           [Scenario.data_line]).
  vm_compute; lia.
Defined.

(** ** Rows read inside the table *)

Lemma mem_In x xs : mem x xs = true -> In x xs.
Proof.
  unfold mem. rewrite existsb_exists. intros (y & Hy & E).
  apply String.eqb_eq in E. subst. exact Hy.
Qed.

(** A candidate line with four leading numbers, read inside the table,
    appends the record the token function builds. *)
Lemma emits_fields st line :
  reading st -> is_candidate line = true ->
  4 <= leading_numeric (tokens line) ->
  exists d1 d2 d3 d4 ts,
    tokens line = d1 :: d2 :: d3 :: d4 :: ts /\
    category_position (tokens line) = Tokens.at_category ts /\
    emits st line (Tokens.fields ts d1 d2 d3 d4).
Proof.
  intros R C L. destruct (row_long _ L) as (d1 & d2 & d3 & d4 & ts & E & Hrow).
  exists d1, d2, d3, d4, ts. split; [exact E|]. split.
  - unfold category_position. rewrite E. reflexivity.
  - unfold emits. rewrite loop_body_next, (next_candidate _ _ R C), Hrow.
    reflexivity.
Qed.

Lemma fields_category ts d1 d2 d3 d4 :
  Category (Tokens.fields ts d1 d2 d3 d4)
  = fst (Tokens.category (Tokens.at_category ts)).
Proof.
  unfold Tokens.fields, Tokens.at_category.
  destruct (Tokens.break _ ts) as [n ts0]. simpl.
  destruct (Tokens.gender ts0) as [g ts1]. simpl.
  destruct (Tokens.category ts1) as [cat ts2]. simpl.
  destruct (Tokens.break match_college_code ts2) as [q ts3].
  destruct (Tokens.college ts3). reflexivity.
Qed.

(** Case analysis on a member of a literal vocabulary. *)
Ltac each_code H :=
  apply mem_In in H; simpl in H;
  repeat (destruct H as [H|H]; [subst|]); [..|contradiction].

(** C5.  In a row read inside the table, when the tokens at the category
    position are a vocabulary token followed by the token [(W)], the
    record has an empty Category and the vocabulary token is the first
    token of Quota, followed by [(W)] and the tokens up to the college
    code. *)
Theorem C5_w_marker_suppresses_category (st : State) (line c : string)
    (rest : list string) :
  reading st -> is_candidate line = true ->
  4 <= leading_numeric (tokens line) ->
  category_position (tokens line) = c :: "(W)" :: rest ->
  mem c VALID_CATEGORIES = true ->
  exists r, emits st line r /\
            Category r = EmptyString /\
            Quota r = join (c :: "(W)" :: fst (Tokens.break match_college_code rest)).
Proof.
  intros R C L P V.
  destruct (emits_fields _ _ R C L) as (d1 & d2 & d3 & d4 & ts & _ & A & E).
  exists (Tokens.fields ts d1 d2 d3 d4). split; [exact E|].
  rewrite fields_category, fields_quota, <- A, P.
  unfold Tokens.quota_tokens, Tokens.category. rewrite V.
  change (match_W "(W)") with true. cbv iota. split; [reflexivity|].
  cbn [snd Tokens.break].
  assert (Hc : match_college_code c = false) by (each_code V; reflexivity).
  rewrite Hc. change (match_college_code "(W)") with false. cbv iota.
  destruct (Tokens.break match_college_code rest) as [q ts']. cbn [fst].
  unfold normalize_quota.
  assert (Hq : startswith (join (c :: "(W)" :: q)) "Choice" = false)
    by (each_code V; reflexivity).
  rewrite Hq. reflexivity.
Qed.

Lemma C5_w_marker_suppresses_category_witness :
  let st := {| in_table := true; skip_next_line := false; data := [] |} in
  let line := "3 712 223344 5566 ASHA RAO F OBC (W) State 1001:Govt Medical College" in
  exists r, emits st line r /\
            Category r = EmptyString /\
            Quota r = "OBC (W) State".
Proof.
  apply (C5_w_marker_suppresses_category
           {| in_table := true; skip_next_line := false; data := [] |}
           "3 712 223344 5566 ASHA RAO F OBC (W) State 1001:Govt Medical College"
           "OBC" ["State"; "1001:Govt"; "Medical"; "College"]);
    [split; reflexivity | reflexivity | vm_compute; lia
    | reflexivity | reflexivity].
Defined.

(** C6.  In a row read inside the table, when the tokens at the category
    position are a vocabulary token followed by one of the sub-codes
    D1, D2, D3, PWD, ORP-C, the Category of the record is the two tokens
    joined by one space if the first is not itself a sub-code, and the
    first token alone if it is. *)
Theorem C6_compound_category (st : State) (line c s : string)
    (rest : list string) :
  reading st -> is_candidate line = true ->
  4 <= leading_numeric (tokens line) ->
  category_position (tokens line) = c :: s :: rest ->
  mem c VALID_CATEGORIES = true -> mem s SUB_CODES = true ->
  exists r, emits st line r /\
            Category r = if mem c SUB_CODES then c else (c ++ " " ++ s)%string.
Proof.
  intros R C L P V S.
  destruct (emits_fields _ _ R C L) as (d1 & d2 & d3 & d4 & ts & _ & A & E).
  exists (Tokens.fields ts d1 d2 d3 d4). split; [exact E|].
  rewrite fields_category, <- A, P.
  unfold Tokens.category. rewrite V, S.
  assert (W : match_W s = false) by (each_code S; reflexivity).
  rewrite W. cbv iota.
  each_code V; each_code S; reflexivity.
Qed.

Lemma C6_compound_category_witness :
  let st := {| in_table := true; skip_next_line := false; data := [] |} in
  (exists r,
     emits st "4 90 334455 6677 RAVI KUMAR M SC PWD State 1001:Govt Medical College" r /\
     Category r = "SC PWD") /\
  (exists r,
     emits st "5 91 334456 6678 MEENA IYER F PWD D1 State 1001:Govt Medical College" r /\
     Category r = "PWD").
Proof.
  split.
  - apply (C6_compound_category
             {| in_table := true; skip_next_line := false; data := [] |}
             "4 90 334455 6677 RAVI KUMAR M SC PWD State 1001:Govt Medical College"
             "SC" "PWD" ["State"; "1001:Govt"; "Medical"; "College"]);
      [split; reflexivity | reflexivity | vm_compute; lia
      | reflexivity | reflexivity | reflexivity].
  - apply (C6_compound_category
             {| in_table := true; skip_next_line := false; data := [] |}
             "5 91 334456 6678 MEENA IYER F PWD D1 State 1001:Govt Medical College"
             "PWD" "D1" ["State"; "1001:Govt"; "Medical"; "College"]);
      [split; reflexivity | reflexivity | vm_compute; lia
      | reflexivity | reflexivity | reflexivity].
Defined.

(** C7.  In a row read inside the table, if the space-joined Quota token
    sequence starts with [Choice], whatever follows, the Quota of the
    record is the literal [Choice Not Available]. *)
Theorem C7_choice_prefix_normalized (st : State) (line : string) :
  reading st -> is_candidate line = true ->
  4 <= leading_numeric (tokens line) ->
  startswith (join (quota_sequence (tokens line))) "Choice" = true ->
  exists r, emits st line r /\ Quota r = "Choice Not Available".
Proof.
  intros R C L Q.
  destruct (emits_fields _ _ R C L) as (d1 & d2 & d3 & d4 & ts & _ & A & E).
  exists (Tokens.fields ts d1 d2 d3 d4). split; [exact E|].
  rewrite fields_quota, <- A. unfold quota_sequence in Q.
  unfold normalize_quota. rewrite Q. reflexivity.
Qed.

Lemma C7_choice_prefix_normalized_witness :
  let st := {| in_table := true; skip_next_line := false; data := [] |} in
  let line := "6 92 334457 6679 ANIL SHAH M OBC Choices Not Avai" in
  quota_sequence (tokens line) = ["Choices"; "Not"; "Avai"] /\
  exists r, emits st line r /\ Quota r = "Choice Not Available".
Proof.
  split; [reflexivity|].
  apply (C7_choice_prefix_normalized
           {| in_table := true; skip_next_line := false; data := [] |}
           "6 92 334457 6679 ANIL SHAH M OBC Choices Not Avai");
    [split; reflexivity | reflexivity | vm_compute; lia | reflexivity].
Defined.

(** C8.  The parse is total: on every token list the extractor returns
    (a record or a rejection) without raising, every line takes the loop
    to a next state, and every text yields a record sequence.  In the
    model an out-of-range subscript raises [IndexError] and a loop that
    outlives its fuel raises [Diverged]; neither ever happens. *)
Theorem C8_parse_total :
  (forall parts, exists o, extract_row parts = Ok o) /\
  (forall st line, exists st', loop_body st line = Ok st') /\
  (forall text, exists rows, parse_text_file text = Ok rows).
Proof.
  split; [|split].
  - intros parts. eexists. apply Cursor.extract_row_tokens.
  - intros st line. eexists. apply loop_body_next.
  - intros text. unfold parse_text_file. rewrite for_lines_fold.
    eexists. reflexivity.
Qed.

(** C9.  No line before the first header-marker line produces a record:
    the state starts outside the table with no record, and if the lines of
    the text begin with lines [pre] none of which is a header, each of them
    is read in that state and leaves it as it is, so that the records of
    the parse are those of the remaining lines. *)
Theorem C9_nothing_before_first_header (text : string)
    (pre post : list string) :
  split_on LF text = pre ++ post ->
  Forall (fun l => is_header l = false) pre ->
  in_table initial_state = false /\ data initial_state = [] /\
  (forall pre1 l pre2, pre = pre1 ++ l :: pre2 ->
     for_lines pre1 initial_state = Ok initial_state /\
     loop_body initial_state l = Ok initial_state) /\
  parse_text_file text
    = (st' <- for_lines post initial_state ;; Ok (data st')).
Proof.
  intros Hsplit Hpre.
  assert (Hrun : forall ls, Forall (fun l => is_header l = false) ls ->
            for_lines ls initial_state = Ok initial_state).
  { intros ls Hls. rewrite for_lines_fold.
    change initial_state with (closed_with []).
    rewrite (fold_idle ls _ Hls). reflexivity. }
  repeat split.
  - apply Hrun. subst pre. apply Forall_app in Hpre. apply Hpre.
  - subst pre. apply Forall_app in Hpre. destruct Hpre as [_ H2].
    inversion H2 as [|? ? Hl _]; subst.
    rewrite loop_body_next. change initial_state with (closed_with []).
    rewrite (next_idle _ _ Hl). reflexivity.
  - unfold parse_text_file.
    rewrite Hsplit, (for_lines_app _ _ _ _ (Hrun pre Hpre)). reflexivity.
Qed.

Lemma C9_nothing_before_first_header_witness :
  let pre := ["GOVERNMENT OF THE STATE"; "9 9 9 9 NO TABLE YET M OBC State 1:X"] in
  let post := [Scenario.bare_header; "sub-header"; Scenario.data_line] in
  let text := on_lines "GOVERNMENT OF THE STATE"
                (on_lines "9 9 9 9 NO TABLE YET M OBC State 1:X"
                   (on_lines Scenario.bare_header
                      (on_lines "sub-header" Scenario.data_line))) in
  in_table initial_state = false /\ data initial_state = [] /\
  (forall pre1 l pre2, pre = pre1 ++ l :: pre2 ->
     for_lines pre1 initial_state = Ok initial_state /\
     loop_body initial_state l = Ok initial_state) /\
  parse_text_file text
    = (st' <- for_lines post initial_state ;; Ok (data st')).
Proof.
  apply (C9_nothing_before_first_header
           (on_lines "GOVERNMENT OF THE STATE"
              (on_lines "9 9 9 9 NO TABLE YET M OBC State 1:X"
                 (on_lines Scenario.bare_header
                    (on_lines "sub-header" Scenario.data_line))))
           ["GOVERNMENT OF THE STATE"; "9 9 9 9 NO TABLE YET M OBC State 1:X"]
           [Scenario.bare_header; "sub-header"; Scenario.data_line]);
    [reflexivity | repeat constructor].
Defined.

(** C10.  In every record of every parse, an empty Gender comes with an
    empty Category, Quota, College Code and College Name. *)
Theorem C10_empty_gender_empties_rest (text : string) (rows : list Row)
    (r : Row) :
  parse_text_file text = Ok rows -> In r rows ->
  Gender r = EmptyString ->
  Category r = EmptyString /\ Quota r = EmptyString /\
  College_Code r = EmptyString /\ College_Name r = EmptyString.
Proof.
  unfold parse_text_file. rewrite for_lines_fold. unfold bind.
  intros H. inversion H as [Hrows]. clear H. subst rows.
  assert (Inv : forall lines st,
            Forall gender_gates_rest (data st) ->
            Forall gender_gates_rest (data (fold_left next_state lines st))).
  { induction lines as [|l lines IH]; intros st F; simpl; [exact F|].
    apply IH. destruct (next_data st l) as [D|(r0 & Hr & D)].
    - rewrite D. exact F.
    - rewrite D. simpl. apply Forall_app. split; [exact F|].
      constructor; [|constructor].
      unfold Tokens.row in Hr.
      repeat match type of Hr with
             | match ?n with _ => _ end = _ =>
                 destruct n as [[? ?]|]; [|discriminate Hr]
             end.
      inversion Hr; subst. unfold gender_gates_rest.
      exact (fields_no_gender _ _ _ _ _). }
  intros Hin.
  pose proof (Inv (split_on LF text) initial_state (Forall_nil _)) as F.
  rewrite Forall_forall in F. exact (F r Hin).
Qed.

Lemma C10_empty_gender_empties_rest_witness :
  let text := on_lines Scenario.bare_header
                (on_lines "sub-header" "8 77 445566 7788 NAME WITHOUT GENDER") in
  let r := {| Sr_No := "8"; AIR := "77"; NEET_Roll_No := "445566";
              CET_Form_No := "7788"; Name := "NAME WITHOUT GENDER";
              Gender := EmptyString; Category := EmptyString; Quota := EmptyString;
              College_Code := EmptyString; College_Name := EmptyString |} in
  parse_text_file text = Ok [r] /\
  (Category r = EmptyString /\ Quota r = EmptyString /\
   College_Code r = EmptyString /\ College_Name r = EmptyString).
Proof.
  split; [reflexivity|].
  apply (C10_empty_gender_empties_rest
           (on_lines Scenario.bare_header
              (on_lines "sub-header" "8 77 445566 7788 NAME WITHOUT GENDER"))
           [{| Sr_No := "8"; AIR := "77"; NEET_Roll_No := "445566";
               CET_Form_No := "7788"; Name := "NAME WITHOUT GENDER";
               Gender := EmptyString; Category := EmptyString; Quota := EmptyString;
               College_Code := EmptyString; College_Name := EmptyString |}]);
    [reflexivity | left; reflexivity | reflexivity].
Defined.

(* ===================================================================== *)
(** * Further properties of the main loop *)
(* ===================================================================== *)

Module LoopFacts.

Lemma snoc_neq {A : Type} (l : list A) (x : A) : l ++ [x] <> l.
Proof.
  intros E. apply (f_equal (@List.length A)) in E.
  rewrite length_app in E. simpl in E. lia.
Qed.

(** A line is handed to the extractor, or it leaves the records alone. *)
Lemma next_reading_or_same st raw :
  (reading st /\ is_candidate raw = true) \/
  data (next_state st raw) = data st.
Proof.
  unfold reading, is_candidate, next_state.
  destruct (is_empty (strip raw)); [right; reflexivity|].
  destruct (is_table_start (strip raw)); [right; reflexivity|].
  destruct (skip_next_line st); [right; reflexivity|].
  destruct (contains "Legends :" (strip raw)); [right; reflexivity|].
  destruct (negb (in_table st) && existsb (startswith (strip raw)) NOISE_PREFIXES);
    [right; reflexivity|].
  destruct (contains "Current Selection Details" (strip raw)); [right; reflexivity|].
  destruct (startswith (strip raw) "----" || startswith (strip raw) "====");
    [right; reflexivity|].
  destruct (in_table st); [left; auto | right; reflexivity].
Qed.

Lemma row_some_long parts r :
  Tokens.row parts = Some r -> 4 <= leading_numeric parts.
Proof.
  intros H. destruct (Nat.lt_ge_cases (leading_numeric parts) 4) as [L|L];
    [|exact L].
  rewrite (row_short _ L) in H. discriminate H.
Qed.

(** The flags move independently of the records held, and the records
    appended by a line do not depend on those already there. *)
Lemma next_frame st raw d :
  next_state (set_data st (d ++ data st)) raw
  = set_data (next_state st raw) (d ++ data (next_state st raw)).
Proof.
  destruct st as [it sk dt]. unfold next_state, set_data. cbn [in_table skip_next_line data].
  destruct it, sk; cbn [negb andb];
  repeat match goal with
         | |- context [if ?c then _ else _] => destruct c; try reflexivity
         end.
  all: match goal with
  | |- context [Tokens.row ?ts] => destruct (Tokens.row ts); simpl; [|reflexivity]
  end.
  rewrite app_assoc. reflexivity.
Qed.

Lemma fold_frame lines : forall st d,
  fold_left next_state lines (set_data st (d ++ data st))
  = set_data (fold_left next_state lines st)
             (d ++ data (fold_left next_state lines st)).
Proof.
  induction lines as [|l lines IH]; intros st d; simpl; [reflexivity|].
  rewrite next_frame. apply IH.
Qed.

Lemma split_on_nonempty sep s : split_on sep s <> [].
Proof. destruct s; simpl; [discriminate|]. destruct (Ascii.eqb a sep); discriminate. Qed.

(** The lines of two texts put one after the other on separate lines. *)
Lemma split_on_app a b :
  split_on LF (on_lines a b) = split_on LF a ++ split_on LF b.
Proof.
  unfold on_lines. induction a as [|c a IH]; simpl; [reflexivity|].
  rewrite IH. destruct (Ascii.eqb c LF); [reflexivity|].
  pose proof (split_on_nonempty LF a) as N.
  destruct (split_on LF a); [contradiction|reflexivity].
Qed.

End LoopFacts.

Import LoopFacts.

(** X1.  A line appends a record exactly when the table is open, no skip
    is pending, the line passes every filter of the classifier, and its
    tokens begin with four all-digit tokens. *)
Theorem X1_record_iff (st : State) (line : string) :
  (exists r, emits st line r) <->
  (reading st /\ is_candidate line = true /\
   4 <= leading_numeric (tokens line)).
Proof.
  split.
  - intros [r E]. unfold emits in E. rewrite loop_body_next in E.
    inversion E as [E']. clear E.
    destruct (next_reading_or_same st line) as [[R C]|D].
    + split; [exact R|]. split; [exact C|].
      rewrite (next_candidate _ _ R C) in E'.
      destruct (Tokens.row (tokens line)) as [r0|] eqn:Hr.
      * apply (row_some_long _ _ Hr).
      * exfalso. apply (f_equal data) in E'. simpl in E'.
        symmetry in E'. exact (snoc_neq _ _ E').
    + exfalso. rewrite E' in D. simpl in D. exact (snoc_neq _ _ D).
  - intros (R & C & L).
    destruct (emits_fields _ _ R C L) as (d1 & d2 & d3 & d4 & ts & _ & _ & E).
    eexists. exact E.
Qed.

(** X2.  While a skip is pending no line appends a record, whatever it
    contains: a blank line leaves the skip pending, a header line renews
    it, and any other line uses it up and is dropped. *)
Theorem X2_pending_skip_drops_line (st : State) (line : string) :
  skip_next_line st = true ->
  exists st', loop_body st line = Ok st' /\ data st' = data st /\
    skip_next_line st' = (is_blank line || is_header line).
Proof.
  intros K. exists (next_state st line). split; [apply loop_body_next|].
  unfold is_blank, is_header, next_state.
  destruct (is_empty (strip line)); simpl; [auto|].
  destruct (is_table_start (strip line)); simpl; [auto|].
  rewrite K. simpl. auto.
Qed.

Lemma X2_pending_skip_drops_line_witness :
  let st := {| in_table := true; skip_next_line := true; data := [] |} in
  exists st', loop_body st Scenario.data_line = Ok st' /\ data st' = data st /\
    skip_next_line st' = false.
Proof.
  apply (X2_pending_skip_drops_line
           {| in_table := true; skip_next_line := true; data := [] |}
           Scenario.data_line).
  reflexivity.
Defined.

(** X3.  Blank lines are invisible: dropping every whitespace-only line
    from the input changes neither the records nor the final state. *)
Theorem X3_blank_lines_invisible (lines : list string) (st : State) :
  for_lines lines st
  = for_lines (filter (fun l => negb (is_blank l)) lines) st.
Proof.
  rewrite !for_lines_fold. f_equal. revert st.
  induction lines as [|l lines IH]; intros st; simpl; [reflexivity|].
  destruct (is_blank l) eqn:B; simpl.
  - rewrite (next_blank _ _ B). apply IH.
  - apply IH.
Qed.

(** X4.  The record list only grows at its end: running more lines keeps
    the records already there as a prefix, and appends at most one record
    for each line that has the shape of a data row. *)
Theorem X4_records_append_only (pre post : list string) (st : State) :
  exists st1 st2 new,
    for_lines pre st = Ok st1 /\
    for_lines (pre ++ post) st = Ok st2 /\
    data st2 = data st1 ++ new /\
    List.length new <= List.length (filter is_row_line post).
Proof.
  exists (fold_left next_state pre st).
  exists (fold_left next_state (pre ++ post) st).
  rewrite !for_lines_fold, fold_left_app.
  generalize (fold_left next_state pre st) as st1. clear pre st.
  induction post as [|l post IH]; intros st1; cbn [fold_left filter].
  - exists []. rewrite app_nil_r. auto.
  - destruct (IH (next_state st1 l)) as (new & _ & _ & D & B).
    destruct (next_reading_or_same st1 l) as [[R C]|S].
    + rewrite (next_candidate _ _ R C) in *.
      unfold is_row_line at 1. rewrite C. cbn [andb].
      destruct (Tokens.row (tokens l)) as [r|] eqn:Hr.
      * pose proof (row_some_long _ _ Hr) as L.
        apply Nat.leb_le in L. rewrite L. cbn [data set_data] in D.
        exists (r :: new). repeat split; try reflexivity.
        -- rewrite D, <- app_assoc. reflexivity.
        -- cbn [List.length]. lia.
      * exists new. repeat split; try reflexivity; [exact D|].
        destruct (4 <=? leading_numeric (tokens l)); cbn [List.length]; lia.
    + exists new. repeat split; try reflexivity; [congruence|].
      destruct (is_row_line l); cbn [List.length]; lia.
Qed.

(** X5.  Pages compose: when the lines of a first text leave the table
    closed with no skip pending, the parse of the two texts put on
    successive lines is the records of the first followed by the records
    of the second. *)
Theorem X5_pages_compose (text1 text2 : string) (rows1 rows2 : list Row) :
  for_lines (split_on LF text1) initial_state = Ok (closed_with rows1) ->
  parse_text_file text2 = Ok rows2 ->
  parse_text_file (on_lines text1 text2) = Ok (rows1 ++ rows2).
Proof.
  unfold parse_text_file. intros H1 H2.
  rewrite split_on_app, (for_lines_app _ _ _ _ H1).
  rewrite for_lines_fold in *. unfold bind in *.
  inversion H2 as [H2']. clear H1 H2.
  replace (closed_with rows1)
    with (set_data initial_state (rows1 ++ data initial_state))
    by (unfold set_data, closed_with; simpl; rewrite app_nil_r; reflexivity).
  rewrite fold_frame. reflexivity.
Qed.

Lemma X5_pages_compose_witness :
  let page :=
    on_lines Scenario.bare_header
      (on_lines "sub-header" (on_lines Scenario.data_line Scenario.legends)) in
  parse_text_file (on_lines page page)
  = Ok ([Scenario.expected] ++ [Scenario.expected]).
Proof.
  apply (X5_pages_compose
           (on_lines Scenario.bare_header
              (on_lines "sub-header" (on_lines Scenario.data_line Scenario.legends)))
           (on_lines Scenario.bare_header
              (on_lines "sub-header" (on_lines Scenario.data_line Scenario.legends))));
    reflexivity.
Defined.

(* ===================================================================== *)
(** * Facts about the string primitives *)
(* ===================================================================== *)

Module StrFacts.

Lemma append_nil_r (s : string) : (s ++ EmptyString)%string = s.
Proof. induction s as [|c s IH]; simpl; [reflexivity|]. rewrite IH. reflexivity. Qed.

Lemma append_assoc (a b c : string) : ((a ++ b) ++ c = a ++ (b ++ c))%string.
Proof. induction a as [|x a IH]; simpl; [reflexivity|]. rewrite IH. reflexivity. Qed.

Lemma all_chars_app p a b :
  all_chars p (a ++ b) = all_chars p a && all_chars p b.
Proof.
  induction a as [|c a IH]; simpl; [reflexivity|].
  rewrite IH, andb_assoc. reflexivity.
Qed.

(** What [lstrip] leaves is empty or begins with a non-whitespace
    character. *)
Lemma lstrip_head s :
  lstrip s = EmptyString \/
  exists c r, lstrip s = String c r /\ isspace c = false.
Proof.
  induction s as [|c s IH]; simpl; [left; reflexivity|].
  destruct (isspace c) eqn:Hc; [exact IH|]. right. eauto.
Qed.

Lemma lstrip_all_space w : all_space w -> lstrip w = EmptyString.
Proof.
  unfold all_space. induction w as [|c w IH]; simpl; [reflexivity|].
  intros H. apply andb_prop in H. destruct H as [Hc Hw]. rewrite Hc. auto.
Qed.

Lemma lstrip_space_app w s : all_space w -> lstrip (w ++ s) = lstrip s.
Proof.
  unfold all_space. induction w as [|c w IH]; simpl; [reflexivity|].
  intros H. apply andb_prop in H. destruct H as [Hc Hw]. rewrite Hc. auto.
Qed.

Lemma lstrip_nonspace c s : isspace c = false -> lstrip (String c s) = String c s.
Proof. simpl. intros ->. reflexivity. Qed.

(** Stripping on the left stops at a non-whitespace character. *)
Lemma lstrip_app a c s :
  isspace c = false -> exists a', lstrip (a ++ String c s) = (a' ++ String c s)%string.
Proof.
  intros Hc. induction a as [|x a IH]; simpl.
  - rewrite Hc. exists EmptyString. reflexivity.
  - destruct (isspace x); [exact IH|]. exists (String x a). reflexivity.
Qed.

Lemma rstrip_nonspace c s :
  isspace c = false -> exists r, rstrip (String c s) = String c r.
Proof. intros Hc. simpl. rewrite Hc. destruct (rstrip s); eauto. Qed.

Lemma rstrip_all_space w : all_space w -> rstrip w = EmptyString.
Proof.
  unfold all_space. induction w as [|c w IH]; simpl; [reflexivity|].
  intros H. apply andb_prop in H. destruct H as [Hc Hw].
  rewrite (IH Hw), Hc. reflexivity.
Qed.

Lemma rstrip_space_app s w : all_space w -> rstrip (s ++ w) = rstrip s.
Proof.
  intros Hw. induction s as [|c s IH]; simpl.
  - apply rstrip_all_space. exact Hw.
  - rewrite IH. reflexivity.
Qed.

Lemma rstrip_no_space s :
  all_chars (fun c => negb (isspace c)) s = true -> rstrip s = s.
Proof.
  induction s as [|c s IH]; simpl; [reflexivity|].
  intros H. apply andb_prop in H. destruct H as [Hc Hs].
  apply negb_true_iff in Hc. rewrite (IH Hs), Hc. destruct s; reflexivity.
Qed.

Lemma strip_no_space s :
  all_chars (fun c => negb (isspace c)) s = true -> strip s = s.
Proof.
  intros H. unfold strip.
  assert (L : lstrip s = s).
  { destruct s as [|c s]; [reflexivity|]. simpl in *.
    apply andb_prop in H. destruct H as [Hc _].
    apply negb_true_iff in Hc. rewrite Hc. reflexivity. }
  rewrite L. apply rstrip_no_space. exact H.
Qed.

(** A stripped line, if not empty, begins with a non-whitespace
    character. *)
Lemma strip_head s c r : strip s = String c r -> isspace c = false.
Proof.
  unfold strip. destruct (lstrip_head s) as [E|(c0 & r0 & E & Hc)]; rewrite E.
  - discriminate.
  - destruct (rstrip_nonspace c0 r0 Hc) as [r' ->]. intros H.
    inversion H; subst. exact Hc.
Qed.

(** Whitespace around a line does not survive [strip]. *)
Lemma strip_padded a b : padded a b -> strip b = strip a.
Proof.
  intros (w1 & w2 & H1 & H2 & ->). unfold strip.
  rewrite (lstrip_space_app _ _ H1). clear w1 H1.
  induction a as [|c a IH]; simpl.
  - rewrite (lstrip_all_space _ H2). reflexivity.
  - destruct (isspace c); [exact IH|].
    apply (rstrip_space_app (String c a) w2 H2).
Qed.

(** The first token of a line that begins with a non-whitespace
    character begins with that character. *)
Lemma split_head c s :
  isspace c = false -> exists t ts, split (String c s) = String c t :: ts.
Proof.
  intros Hc. simpl. rewrite Hc.
  destruct (split s) as [|t ts]; [eauto|].
  destruct (starts_with_space s); eauto.
Qed.

Lemma prefix_app sub b : String.prefix sub (sub ++ b) = true.
Proof.
  induction sub as [|x sub IH]; simpl; [destruct b; reflexivity|].
  destruct (ascii_dec x x) as [_|N]; [exact IH | exfalso; apply N; reflexivity].
Qed.

Lemma contains_prefix sub s : String.prefix sub s = true -> contains sub s = true.
Proof. intros H. destruct s; unfold contains; rewrite H; reflexivity. Qed.

Lemma contains_app sub a b : contains sub (a ++ sub ++ b) = true.
Proof.
  induction a as [|c a IH]; simpl append.
  - apply contains_prefix, prefix_app.
  - unfold contains; fold contains. rewrite IH. apply orb_true_r.
Qed.

Lemma join_cons_app (a b : string) rest :
  join ((a ++ b)%string :: rest) = (a ++ join (b :: rest))%string.
Proof.
  unfold join. simpl. destruct rest; [reflexivity|].
  rewrite append_assoc. reflexivity.
Qed.

(** [split(':', 1)] cuts at the first colon. *)
Lemma split_once_first a b :
  no_colon a -> split_once ":" (a ++ String ":" b) = [a; b].
Proof.
  unfold no_colon. induction a as [|c a IH]; simpl; intros H; [reflexivity|].
  apply andb_prop in H. destruct H as [Hc Ha].
  apply negb_true_iff in Hc. rewrite Hc, (IH Ha). reflexivity.
Qed.

Lemma split_once_none s : no_colon s -> split_once ":" s = [s].
Proof.
  unfold no_colon. induction s as [|c s IH]; simpl; intros H; [reflexivity|].
  apply andb_prop in H. destruct H as [Hc Hs].
  apply negb_true_iff in Hc. rewrite Hc, (IH Hs). reflexivity.
Qed.

Lemma decimal_char_facts c :
  isdecimal_char c = true ->
  isspace c = false /\ Ascii.eqb c ":" = false /\ isdigit_char c = true.
Proof.
  destruct c as [[] [] [] [] [] [] [] []]; vm_compute; intros H;
    try discriminate H; repeat split; reflexivity.
Qed.

Lemma all_decimal_facts s :
  all_decimal s ->
  no_colon s /\ all_chars (fun c => negb (isspace c)) s = true.
Proof.
  unfold all_decimal, no_colon. induction s as [|c s IH]; simpl; [auto|].
  intros H. apply andb_prop in H. destruct H as [Hc Hs].
  destruct (decimal_char_facts c Hc) as (S & C & _).
  destruct (IH Hs) as [I1 I2]. rewrite S, C, I1, I2. auto.
Qed.

Lemma skip_decimals_spec s :
  exists ds, s = (ds ++ skip_decimals s)%string /\ all_decimal ds.
Proof.
  unfold all_decimal. induction s as [|c s (ds & E & D)]; simpl.
  - exists EmptyString. auto.
  - destruct (isdecimal_char c) eqn:Hc.
    + exists (String c ds). simpl. rewrite Hc, D, <- E. auto.
    + exists EmptyString. auto.
Qed.

(** A token shaped like a college code is a non-empty run of decimal
    digits, a colon, and a tail. *)
Lemma college_code_shape t :
  match_college_code t = true ->
  exists ds x, t = (ds ++ String ":" x)%string /\ all_decimal ds /\ ds <> EmptyString.
Proof.
  unfold match_college_code. destruct t as [|c s]; [discriminate|].
  intros H. apply andb_prop in H. destruct H as [Hc H].
  destruct (skip_decimals_spec s) as (ds & E & D).
  destruct (skip_decimals s) as [|d x]; [discriminate|].
  apply Ascii.eqb_eq in H. subst d.
  exists (String c ds), x. repeat split.
  - simpl. rewrite <- E. reflexivity.
  - unfold all_decimal in *. simpl. rewrite Hc, D. reflexivity.
  - discriminate.
Qed.

End StrFacts.

Import StrFacts.

(* ===================================================================== *)
(** * Further properties of the line classifier *)
(* ===================================================================== *)

Module HeaderFacts.

Lemma spaces1_app w c s :
  all_space w -> w <> EmptyString -> isspace c = false ->
  spaces1 (w ++ String c s) = Some (String c s).
Proof.
  intros Hw Hn Hc. destruct w as [|x w]; [contradiction|].
  unfold all_space in Hw. simpl in *.
  apply andb_prop in Hw. destruct Hw as [Hx Hw]. rewrite Hx.
  rewrite (lstrip_space_app w _ Hw), (lstrip_nonspace _ _ Hc). reflexivity.
Qed.

(** The header pattern accepts any non-empty whitespace between its three
    words, and anything after them. *)
Lemma match_table_start_shape w1 w2 tail :
  all_space w1 -> w1 <> EmptyString -> all_space w2 -> w2 <> EmptyString ->
  match_table_start ("Sr." ++ w1 ++ "AIR" ++ w2 ++ "NEET" ++ tail) = true.
Proof.
  intros H1 N1 H2 N2. unfold match_table_start.
  change (lstrip ("Sr." ++ w1 ++ "AIR" ++ w2 ++ "NEET" ++ tail))
    with ("Sr." ++ w1 ++ "AIR" ++ w2 ++ "NEET" ++ tail)%string.
  change (lit "Sr." ("Sr." ++ w1 ++ "AIR" ++ w2 ++ "NEET" ++ tail))
    with (Some (w1 ++ String "A" ("IR" ++ w2 ++ "NEET" ++ tail))%string).
  cbv beta iota.
  rewrite (spaces1_app w1 "A" _ H1 N1 eq_refl).
  change (lit "AIR" (String "A" ("IR" ++ w2 ++ "NEET" ++ tail)))
    with (Some (w2 ++ String "N" ("EET" ++ tail))%string).
  cbv beta iota.
  rewrite (spaces1_app w2 "N" _ H2 N2 eq_refl).
  reflexivity.
Qed.

End HeaderFacts.

Import HeaderFacts.

(** X6.  A line whose first non-whitespace character is not a digit never
    appends a record, in any state: dividers, prose and page furniture
    are harmless inside the table as well as outside. *)
Theorem X6_first_character_must_be_digit (st : State) (line : string)
    (c : ascii) (s : string) :
  strip line = String c s -> isdigit_char c = false ->
  exists st', loop_body st line = Ok st' /\ data st' = data st.
Proof.
  intros E D. exists (next_state st line). split; [apply loop_body_next|].
  apply next_data_rejected, row_short. unfold tokens. rewrite E.
  destruct (split_head c s (strip_head _ _ _ E)) as (t & ts & ->).
  simpl. unfold isdigit. simpl. rewrite D. simpl. lia.
Qed.

Lemma X6_first_character_must_be_digit_witness :
  let st := {| in_table := true; skip_next_line := false; data := [] |} in
  exists st', loop_body st "  Note: 1 2 3 4 A M OBC State 1:X" = Ok st' /\
              data st' = data st.
Proof.
  apply (X6_first_character_must_be_digit
           {| in_table := true; skip_next_line := false; data := [] |}
           "  Note: 1 2 3 4 A M OBC State 1:X"
           "N" "ote: 1 2 3 4 A M OBC State 1:X");
    reflexivity.
Defined.

(** X7.  A line made of [Sr.], [AIR] and [NEET] in that order, separated
    by any non-empty whitespace, with any indentation and anything after
    [NEET], is a header line: in every state it opens the table and sets
    the pending skip, and it appends nothing. *)
Theorem X7_header_with_any_spacing (st : State) (w0 w1 w2 rest : string) :
  all_space w0 ->
  all_space w1 -> w1 <> EmptyString ->
  all_space w2 -> w2 <> EmptyString ->
  loop_body st (w0 ++ "Sr." ++ w1 ++ "AIR" ++ w2 ++ "NEET" ++ rest)
  = Ok {| in_table := true; skip_next_line := true; data := data st |}.
Proof.
  intros H0 H1 N1 H2 N2. rewrite loop_body_next. f_equal.
  apply next_header. unfold is_header, strip.
  rewrite (lstrip_space_app _ _ H0).
  change (lstrip ("Sr." ++ w1 ++ "AIR" ++ w2 ++ "NEET" ++ rest))
    with ("Sr." ++ w1 ++ "AIR" ++ w2 ++ "NEET" ++ rest)%string.
  assert (E : forall x,
            ("Sr." ++ w1 ++ "AIR" ++ w2 ++ "NEET" ++ x
             = ("Sr." ++ w1 ++ "AIR" ++ w2 ++ "NEE") ++ String "T" x)%string).
  { intros x. rewrite !append_assoc. reflexivity. }
  rewrite E.
  destruct (rstrip_app ("Sr." ++ w1 ++ "AIR" ++ w2 ++ "NEE") "T" rest eq_refl)
    as [r ->].
  rewrite <- E. unfold is_table_start.
  rewrite (match_table_start_shape w1 w2 r H1 N1 H2 N2). reflexivity.
Qed.

Lemma X7_header_with_any_spacing_witness :
  let tab := String "009" EmptyString in
  loop_body initial_state
    ("   " ++ "Sr." ++ tab ++ "AIR" ++ "  " ++ "NEET" ++ " Roll No. and more")
  = Ok {| in_table := true; skip_next_line := true; data := [] |}.
Proof.
  apply (X7_header_with_any_spacing initial_state
           "   " (String "009" EmptyString) "  " " Roll No. and more");
    (reflexivity || discriminate).
Defined.

(** X8.  A line that contains [Sr.], five spaces, [AIR], five spaces,
    [NEET] anywhere in it is a header line, whatever stands before and
    after. *)
Theorem X8_header_marker_anywhere (st : State) (a b : string) :
  loop_body st (a ++ "Sr.     AIR     NEET" ++ b)
  = Ok {| in_table := true; skip_next_line := true; data := data st |}.
Proof.
  rewrite loop_body_next. f_equal. apply next_header.
  unfold is_header, strip.
  change (a ++ "Sr.     AIR     NEET" ++ b)%string
    with (a ++ String "S" ("r.     AIR     NEET" ++ b))%string.
  destruct (lstrip_app a "S" ("r.     AIR     NEET" ++ b) eq_refl) as [a' ->].
  assert (E : forall x,
            (a' ++ String "S" ("r.     AIR     NEET" ++ x)
             = (a' ++ "Sr.     AIR     NEE") ++ String "T" x)%string).
  { intros x. rewrite append_assoc. reflexivity. }
  rewrite E.
  destruct (rstrip_app (a' ++ "Sr.     AIR     NEE") "T" b eq_refl) as [r ->].
  rewrite <- E. unfold is_table_start.
  change (a' ++ String "S" ("r.     AIR     NEET" ++ r))%string
    with (a' ++ "Sr.     AIR     NEET" ++ r)%string.
  rewrite contains_app. apply orb_true_r.
Qed.

(** X9.  Whitespace around a line is ignored: two inputs whose lines
    differ only by whitespace added in front of or behind each line take
    the loop through the same states. *)
Theorem X9_padding_ignored (lines lines' : list string) (st : State) :
  Forall2 padded lines lines' ->
  for_lines lines' st = for_lines lines st.
Proof.
  intros F. revert st. induction F as [|a b ls ls' P F IH]; intros st;
    [reflexivity|].
  simpl.
  assert (E : loop_body st b = loop_body st a)
    by (unfold loop_body; rewrite (strip_padded _ _ P); reflexivity).
  rewrite E. destruct (loop_body st a); simpl; [apply IH|reflexivity].
Qed.

Lemma X9_padding_ignored_witness :
  for_lines ["  " ++ Scenario.bare_header ++ " ";
             String "009" EmptyString ++ "sub-header" ++ EmptyString;
             EmptyString ++ Scenario.data_line ++ String "013" EmptyString]%string
            initial_state
  = for_lines [Scenario.bare_header; "sub-header"; Scenario.data_line]
              initial_state.
Proof.
  apply (X9_padding_ignored
           [Scenario.bare_header; "sub-header"; Scenario.data_line]
           ["  " ++ Scenario.bare_header ++ " ";
            String "009" EmptyString ++ "sub-header" ++ EmptyString;
            EmptyString ++ Scenario.data_line ++ String "013" EmptyString]%string
           initial_state).
  constructor; [exists "  ", " "; repeat split; reflexivity|].
  constructor;
    [exists (String "009" EmptyString), EmptyString; repeat split; reflexivity|].
  constructor;
    [exists EmptyString, (String "013" EmptyString); repeat split; reflexivity|].
  constructor.
Defined.

Module PaddingFacts.

Lemma padded_refl a : padded a a.
Proof.
  exists EmptyString, EmptyString. repeat split; try reflexivity.
  simpl. rewrite append_nil_r. reflexivity.
Qed.

Lemma padded_cr a : padded a (a ++ String CR EmptyString).
Proof. exists EmptyString, (String CR EmptyString). repeat split; reflexivity. Qed.

Lemma for_lines_padded lines lines' : Forall2 padded lines lines' ->
  forall st, for_lines lines' st = for_lines lines st.
Proof.
  intros F. induction F as [|a b ls ls' P F IH]; intros st; [reflexivity|].
  simpl.
  assert (E : loop_body st b = loop_body st a)
    by (unfold loop_body; rewrite (strip_padded _ _ P); reflexivity).
  rewrite E. destruct (loop_body st a); simpl; [apply IH|reflexivity].
Qed.

(** The lines of a text with CR LF line ends are those of the text with
    LF line ends, each but the last followed by a carriage return. *)
Lemma crlf_lines lines :
  Forall no_newline lines ->
  Forall2 padded (split_on LF (unlines_lf lines))
                 (split_on LF (unlines_crlf lines)).
Proof.
  unfold unlines_lf, unlines_crlf.
  induction lines as [|l rest IH]; intros F.
  - simpl. constructor; [apply padded_refl|constructor].
  - inversion F as [|? ? Hl Hrest]; subst.
    destruct rest as [|l2 rest].
    + simpl. rewrite (split_on_single l Hl).
      constructor; [apply padded_refl|constructor].
    + specialize (IH Hrest).
      change (String.concat (String LF EmptyString) (l :: l2 :: rest))
        with (on_lines l (String.concat (String LF EmptyString) (l2 :: rest))).
      change (String.concat (String CR (String LF EmptyString)) (l :: l2 :: rest))
        with (l ++ String CR (String LF
               (String.concat (String CR (String LF EmptyString)) (l2 :: rest))))%string.
      replace (l ++ String CR (String LF
               (String.concat (String CR (String LF EmptyString)) (l2 :: rest))))%string
        with (on_lines (l ++ String CR EmptyString)
               (String.concat (String CR (String LF EmptyString)) (l2 :: rest)))
        by (unfold on_lines; rewrite append_assoc; reflexivity).
      rewrite (split_on_lines l _ Hl).
      rewrite (split_on_lines (l ++ String CR EmptyString)).
      2:{ apply no_newline_app; [exact Hl | reflexivity]. }
      constructor; [apply padded_cr | exact IH].
Qed.

End PaddingFacts.

Import PaddingFacts.

(** X10.  Line ends do not matter: a text whose lines end in
    carriage return + line feed parses to the same records as the text
    with the same lines ending in a line feed. *)
Theorem X10_crlf_same_as_lf (lines : list string) :
  Forall no_newline lines ->
  parse_text_file (unlines_crlf lines) = parse_text_file (unlines_lf lines).
Proof.
  intros F. unfold parse_text_file.
  rewrite (for_lines_padded _ _ (crlf_lines lines F)). reflexivity.
Qed.

Lemma X10_crlf_same_as_lf_witness :
  parse_text_file
    (unlines_crlf [Scenario.bare_header; "sub-header"; Scenario.data_line])
  = parse_text_file
      (unlines_lf [Scenario.bare_header; "sub-header"; Scenario.data_line]).
Proof.
  apply (X10_crlf_same_as_lf
           [Scenario.bare_header; "sub-header"; Scenario.data_line]).
  repeat constructor.
Defined.

(** X11.  The college group is cut at its first colon only: when the
    tokens left at [idx] begin with [code:x], the College Code is the
    stripped text before that colon and the College Name the stripped
    rest of the line after it, later colons included. *)
Theorem X11_college_cut_at_first_colon (parts : list string) (idx : nat)
    (code x : string) (rest : list string) :
  skipn idx parts = (code ++ String ":" x)%string :: rest ->
  no_colon code ->
  college_fields parts idx = (strip code, strip (join (x :: rest))).
Proof.
  intros H N. rewrite Cursor.college_fields_tokens, H.
  unfold Tokens.college. rewrite join_cons_app.
  replace (join (String ":" x :: rest)) with (String ":" (join (x :: rest)))
    by (unfold join; simpl; destruct rest; reflexivity).
  rewrite (split_once_first _ _ N). reflexivity.
Qed.

Lemma X11_college_cut_at_first_colon_witness :
  college_fields ["State"; "1001:Govt"; "College:"; "Annex"] 1
  = ("1001", "Govt College: Annex").
Proof.
  apply (X11_college_cut_at_first_colon
           ["State"; "1001:Govt"; "College:"; "Annex"] 1
           "1001" "Govt" ["College:"; "Annex"]);
    reflexivity.
Defined.

(* ===================================================================== *)
(** * What every record satisfies *)
(* ===================================================================== *)

Module RowFacts.

Lemma row_fields parts r :
  Tokens.row parts = Some r ->
  exists d1 d2 d3 d4 ts,
    isdigit d1 = true /\ isdigit d2 = true /\
    isdigit d3 = true /\ isdigit d4 = true /\
    r = Tokens.fields ts d1 d2 d3 d4.
Proof.
  unfold Tokens.row, Tokens.numeric.
  destruct parts as [|d1 [|d2 [|d3 [|d4 ts]]]];
    repeat match goal with
           | |- context [isdigit ?d] => destruct (isdigit d) eqn:?
           end; intros H; try discriminate H.
  inversion H. exists d1, d2, d3, d4, ts. auto.
Qed.

(** A property of every row the token function can build is a property
    of every record of every parse. *)
Lemma parse_rows (P : Row -> Prop) :
  (forall d1 d2 d3 d4 ts,
     isdigit d1 = true -> isdigit d2 = true ->
     isdigit d3 = true -> isdigit d4 = true ->
     P (Tokens.fields ts d1 d2 d3 d4)) ->
  forall text rows r, parse_text_file text = Ok rows -> In r rows -> P r.
Proof.
  intros HP text rows r. unfold parse_text_file.
  rewrite for_lines_fold. unfold bind. intros H. inversion H as [Hrows].
  clear H. subst rows.
  assert (Inv : forall lines st,
            Forall P (data st) ->
            Forall P (data (fold_left next_state lines st))).
  { induction lines as [|l lines IH]; intros st F; simpl; [exact F|].
    apply IH. destruct (next_data st l) as [D|(r0 & Hr & D)].
    - rewrite D. exact F.
    - rewrite D. simpl. apply Forall_app. split; [exact F|].
      constructor; [|constructor].
      destruct (row_fields _ _ Hr) as (d1 & d2 & d3 & d4 & ts & I1 & I2 & I3 & I4 & ->).
      apply HP; assumption. }
  intros Hin.
  pose proof (Inv (split_on LF text) initial_state (Forall_nil _)) as F.
  rewrite Forall_forall in F. exact (F r Hin).
Qed.

Lemma fields_numbers ts d1 d2 d3 d4 :
  let r := Tokens.fields ts d1 d2 d3 d4 in
  Sr_No r = d1 /\ AIR r = d2 /\ NEET_Roll_No r = d3 /\ CET_Form_No r = d4.
Proof.
  unfold Tokens.fields.
  destruct (Tokens.break _ ts) as [n ts0].
  destruct (Tokens.gender ts0) as [g ts1].
  destruct (Tokens.category ts1) as [cat ts2].
  destruct (Tokens.break match_college_code ts2) as [q ts3].
  destruct (Tokens.college ts3). simpl. auto.
Qed.

Lemma fields_gender ts d1 d2 d3 d4 :
  Gender (Tokens.fields ts d1 d2 d3 d4)
  = fst (Tokens.gender (snd (Tokens.break (fun p => mem p GENDERS) ts))).
Proof.
  unfold Tokens.fields.
  destruct (Tokens.break _ ts) as [n ts0]. simpl.
  destruct (Tokens.gender ts0) as [g ts1]. simpl.
  destruct (Tokens.category ts1) as [cat ts2].
  destruct (Tokens.break match_college_code ts2) as [q ts3].
  destruct (Tokens.college ts3). reflexivity.
Qed.

Lemma fields_college ts d1 d2 d3 d4 :
  let r := Tokens.fields ts d1 d2 d3 d4 in
  (College_Code r, College_Name r)
  = Tokens.college
      (snd (Tokens.break match_college_code
              (snd (Tokens.category (Tokens.at_category ts))))).
Proof.
  unfold Tokens.fields, Tokens.at_category.
  destruct (Tokens.break _ ts) as [n ts0]. simpl.
  destruct (Tokens.gender ts0) as [g ts1]. simpl.
  destruct (Tokens.category ts1) as [cat ts2]. simpl.
  destruct (Tokens.break match_college_code ts2) as [q ts3]. simpl.
  destruct (Tokens.college ts3). reflexivity.
Qed.

Lemma gender_domain ts :
  let g := fst (Tokens.gender ts) in
  g = EmptyString \/ g = "M" \/ g = "F".
Proof.
  unfold Tokens.gender. destruct ts as [|t ts]; simpl; [auto|].
  destruct (mem t GENDERS) eqn:G; simpl; [|auto].
  apply mem_In in G. simpl in G. intuition auto.
Qed.

Lemma category_domain ts : category_value (fst (Tokens.category ts)).
Proof.
  unfold category_value, Tokens.category.
  destruct ts as [|c ts]; [left; reflexivity|].
  destruct (mem c VALID_CATEGORIES) eqn:V; [|left; reflexivity].
  assert (Sc : strip c = c) by (each_code V; reflexivity).
  destruct ts as [|q ts]; simpl.
  { right; left. rewrite Sc. exact V. }
  destruct (match_W q); [left; reflexivity|].
  destruct (mem q SUB_CODES) eqn:Q; simpl.
  - destruct (mem c SUB_CODES) eqn:Cs; simpl.
    + right; left. rewrite Sc. exact V.
    + right; right. exists c, q. repeat split; try assumption.
      each_code V; each_code Q; reflexivity.
  - right; left. rewrite Sc. exact V.
Qed.

Lemma college_domain ts :
  match ts with [] => True | t :: _ => match_college_code t = true end ->
  let cn := Tokens.college ts in
  (fst cn = EmptyString /\ snd cn = EmptyString) \/
  (fst cn <> EmptyString /\ all_decimal (fst cn)).
Proof.
  destruct ts as [|t rest]; simpl; [auto|].
  intros M. destruct (college_code_shape t M) as (ds & x & -> & D & N).
  destruct (all_decimal_facts ds D) as [NC NS].
  rewrite join_cons_app.
  replace (join (String ":" x :: rest)) with (String ":" (join (x :: rest)))
    by (unfold join; simpl; destruct rest; reflexivity).
  rewrite (split_once_first _ _ NC). simpl.
  rewrite (strip_no_space _ NS). right. auto.
Qed.

End RowFacts.

Import RowFacts.

(** X12.  In every record of every parse the four leading fields are
    non-empty strings of digits. *)
Theorem X12_numeric_fields_are_digits (text : string) (rows : list Row)
    (r : Row) :
  parse_text_file text = Ok rows -> In r rows ->
  isdigit (Sr_No r) = true /\ isdigit (AIR r) = true /\
  isdigit (NEET_Roll_No r) = true /\ isdigit (CET_Form_No r) = true.
Proof.
  apply (parse_rows (fun r => isdigit (Sr_No r) = true /\ isdigit (AIR r) = true /\
                              isdigit (NEET_Roll_No r) = true /\
                              isdigit (CET_Form_No r) = true)).
  intros d1 d2 d3 d4 ts I1 I2 I3 I4.
  destruct (fields_numbers ts d1 d2 d3 d4) as (-> & -> & -> & ->). auto.
Qed.

Lemma X12_numeric_fields_are_digits_witness :
  isdigit (Sr_No Scenario.expected) = true /\
  isdigit (AIR Scenario.expected) = true /\
  isdigit (NEET_Roll_No Scenario.expected) = true /\
  isdigit (CET_Form_No Scenario.expected) = true.
Proof.
  apply (X12_numeric_fields_are_digits sample_page [Scenario.expected]);
    [reflexivity | left; reflexivity].
Defined.

(** X13.  In every record of every parse the Gender is [M], [F] or
    empty. *)
Theorem X13_gender_domain (text : string) (rows : list Row) (r : Row) :
  parse_text_file text = Ok rows -> In r rows ->
  Gender r = EmptyString \/ Gender r = "M" \/ Gender r = "F".
Proof.
  apply (parse_rows (fun r => Gender r = EmptyString \/ Gender r = "M" \/
                              Gender r = "F")).
  intros d1 d2 d3 d4 ts _ _ _ _. rewrite fields_gender. apply gender_domain.
Qed.

Lemma X13_gender_domain_witness :
  Gender Scenario.expected = EmptyString \/ Gender Scenario.expected = "M" \/
  Gender Scenario.expected = "F".
Proof.
  apply (X13_gender_domain sample_page [Scenario.expected]);
    [reflexivity | left; reflexivity].
Defined.

(** X14.  In every record of every parse the Category is empty, or one
    entry of the category vocabulary, or a primary entry that is not a
    sub-code followed by one space and a sub-code. *)
Theorem X14_category_domain (text : string) (rows : list Row) (r : Row) :
  parse_text_file text = Ok rows -> In r rows -> category_value (Category r).
Proof.
  apply (parse_rows (fun r => category_value (Category r))).
  intros d1 d2 d3 d4 ts _ _ _ _. rewrite fields_category. apply category_domain.
Qed.

Lemma X14_category_domain_witness : category_value (Category Scenario.expected).
Proof.
  apply (X14_category_domain sample_page [Scenario.expected]);
    [reflexivity | left; reflexivity].
Defined.

(** X15.  In every record of every parse a Quota that starts with
    [Choice] is exactly [Choice Not Available]: no other rendering of it
    reaches the output. *)
Theorem X15_quota_choice_is_canonical (text : string) (rows : list Row)
    (r : Row) :
  parse_text_file text = Ok rows -> In r rows ->
  startswith (Quota r) "Choice" = true -> Quota r = "Choice Not Available".
Proof.
  apply (parse_rows (fun r => startswith (Quota r) "Choice" = true ->
                              Quota r = "Choice Not Available")).
  intros d1 d2 d3 d4 ts _ _ _ _. rewrite fields_quota. unfold normalize_quota.
  destruct (startswith (join _) "Choice") eqn:E; [reflexivity|].
  intros H. rewrite E in H. discriminate H.
Qed.

Lemma X15_quota_choice_is_canonical_witness :
  let text := on_lines Scenario.bare_header
                (on_lines "sub-header"
                   "6 92 334457 6679 ANIL SHAH M OBC Choice Not Avai") in
  let r := {| Sr_No := "6"; AIR := "92"; NEET_Roll_No := "334457";
              CET_Form_No := "6679"; Name := "ANIL SHAH"; Gender := "M";
              Category := "OBC"; Quota := "Choice Not Available";
              College_Code := EmptyString; College_Name := EmptyString |} in
  Quota r = "Choice Not Available".
Proof.
  apply (X15_quota_choice_is_canonical
           (on_lines Scenario.bare_header
              (on_lines "sub-header"
                 "6 92 334457 6679 ANIL SHAH M OBC Choice Not Avai"))
           [{| Sr_No := "6"; AIR := "92"; NEET_Roll_No := "334457";
               CET_Form_No := "6679"; Name := "ANIL SHAH"; Gender := "M";
               Category := "OBC"; Quota := "Choice Not Available";
               College_Code := EmptyString; College_Name := EmptyString |}]);
    [reflexivity | left; reflexivity | reflexivity].
Defined.

(** X16.  In every record of every parse the College Code is either
    empty, and then so is the College Name, or a non-empty string of
    decimal digits: the digits that open the first token shaped like a
    college code. *)
Theorem X16_college_code_is_digits (text : string) (rows : list Row)
    (r : Row) :
  parse_text_file text = Ok rows -> In r rows ->
  (College_Code r = EmptyString /\ College_Name r = EmptyString) \/
  (College_Code r <> EmptyString /\ all_decimal (College_Code r)).
Proof.
  apply (parse_rows (fun r =>
           (College_Code r = EmptyString /\ College_Name r = EmptyString) \/
           (College_Code r <> EmptyString /\ all_decimal (College_Code r)))).
  intros d1 d2 d3 d4 ts _ _ _ _.
  pose proof (fields_college ts d1 d2 d3 d4) as E. simpl in E.
  pose proof (college_domain _
                (break_rest match_college_code
                   (snd (Tokens.category (Tokens.at_category ts))))) as D.
  simpl in D. rewrite <- E in D. exact D.
Qed.

Lemma X16_college_code_is_digits_witness :
  (College_Code Scenario.expected = EmptyString /\
   College_Name Scenario.expected = EmptyString) \/
  (College_Code Scenario.expected <> EmptyString /\
   all_decimal (College_Code Scenario.expected)).
Proof.
  apply (X16_college_code_is_digits sample_page [Scenario.expected]);
    [reflexivity | left; reflexivity].
Defined.

(* ===================================================================== *)
(** * The log tail *)
(* ===================================================================== *)

Module LogFacts.

Import Logs.







End LogFacts.

Import Logs LogFacts.







(* ===================================================================== *)
(** * Tokens and the fields joined from them *)
(* ===================================================================== *)

Module SplitFacts.

Lemma is_token_cons c t :
  is_token (String c t) = true ->
  isspace c = false /\ all_chars (fun c => negb (isspace c)) t = true.
Proof.
  unfold is_token. simpl. intros H. apply andb_prop in H.
  destruct H as [Hc Ht]. apply negb_true_iff in Hc. auto.
Qed.

Lemma split_cons c s :
  split (String c s) =
  if isspace c then split s
  else match split s with
       | [] => [String c EmptyString]
       | t :: ts =>
           if starts_with_space s then String c EmptyString :: t :: ts
           else String c t :: ts
       end.
Proof. reflexivity. Qed.

(** Every element of [s.split()] is a token. *)
Lemma split_tokens s : Forall (fun t => is_token t = true) (split s).
Proof.
  induction s as [|c s IH]; [constructor|].
  rewrite split_cons. destruct (isspace c) eqn:Hc; [exact IH|].
  assert (T1 : is_token (String c EmptyString) = true)
    by (unfold is_token; simpl; rewrite Hc; reflexivity).
  destruct (split s) as [|t ts]; [constructor; [exact T1|constructor]|].
  inversion IH as [|? ? Ht Hts]; subst.
  destruct (starts_with_space s).
  - constructor; [exact T1|exact IH].
  - constructor; [|exact Hts].
    unfold is_token in *. simpl. rewrite Hc. simpl.
    apply andb_prop in Ht. apply Ht.
Qed.

Lemma split_one t : is_token t = true -> split t = [t].
Proof.
  destruct t as [|c t]; [discriminate|]. intros H.
  apply is_token_cons in H. destruct H as [Hc Ht].
  revert c Hc. induction t as [|c2 t IH]; intros c Hc;
    rewrite split_cons, Hc.
  - reflexivity.
  - simpl in Ht. apply andb_prop in Ht. destruct Ht as [H2 Ht].
    apply negb_true_iff in H2.
    rewrite (IH Ht c2 H2). cbn [starts_with_space]. rewrite H2. reflexivity.
Qed.

Lemma split_then_space t r :
  is_token t = true -> split (t ++ String " " r) = t :: split r.
Proof.
  destruct t as [|c t]; [discriminate|]. intros H.
  apply is_token_cons in H. destruct H as [Hc Ht].
  revert c Hc. induction t as [|c2 t IH]; intros c Hc.
  - change (String c EmptyString ++ String " " r)%string
      with (String c (String " " r)).
    rewrite split_cons, Hc, (split_cons " " r).
    change (isspace " ") with true. cbv iota.
    destruct (split r); [reflexivity|].
    cbn [starts_with_space]. change (isspace " ") with true. reflexivity.
  - simpl in Ht. apply andb_prop in Ht. destruct Ht as [H2 Ht].
    apply negb_true_iff in H2.
    change (String c (String c2 t) ++ String " " r)%string
      with (String c (String c2 t ++ String " " r)).
    rewrite split_cons, Hc, (IH Ht c2 H2).
    change (starts_with_space (String c2 t ++ String " " r)) with (isspace c2).
    rewrite H2. reflexivity.
Qed.

(** Splitting a space-joined list of tokens gives the tokens back. *)
Lemma split_join ts :
  Forall (fun t => is_token t = true) ts -> split (join ts) = ts.
Proof.
  induction ts as [|t ts IH]; intros F; [reflexivity|].
  inversion F as [|? ? Ht Hts]; subst.
  destruct ts as [|t2 ts].
  - apply (split_one t Ht).
  - change (join (t :: t2 :: ts)) with (t ++ String " " (join (t2 :: ts)))%string.
    rewrite (split_then_space _ _ Ht), (IH Hts). reflexivity.
Qed.

Lemma joined_single_spaced ts :
  Forall (fun t => is_token t = true) ts -> single_spaced (join ts).
Proof. intros F. unfold single_spaced. rewrite (split_join _ F). reflexivity. Qed.

Section Suffixes.

Variable P : string -> Prop.

Lemma break_keeps stop ts :
  Forall P ts ->
  Forall P (fst (Tokens.break stop ts)) /\ Forall P (snd (Tokens.break stop ts)).
Proof.
  intros F. destruct (break_spec stop ts) as [E _].
  rewrite E in F. apply Forall_app in F. exact F.
Qed.

Lemma gender_keeps ts : Forall P ts -> Forall P (snd (Tokens.gender ts)).
Proof.
  unfold Tokens.gender. intros F. destruct ts as [|t ts]; [constructor|].
  destruct (mem t GENDERS); simpl; [inversion F; assumption | exact F].
Qed.

Lemma category_keeps ts : Forall P ts -> Forall P (snd (Tokens.category ts)).
Proof.
  unfold Tokens.category. intros F. destruct ts as [|c ts]; [constructor|].
  destruct (mem c VALID_CATEGORIES); [|exact F].
  inversion F as [|? ? _ F1]; subst.
  destruct ts as [|q ts]; [constructor|].
  destruct (match_W q); [exact F|].
  destruct (mem q SUB_CODES && negb (mem c SUB_CODES)); simpl;
    [inversion F1; assumption | exact F1].
Qed.

End Suffixes.

(** The Name and the Quota of a row built from tokens are single
    spaced. *)
Lemma fields_single_spaced ts d1 d2 d3 d4 :
  Forall (fun t => is_token t = true) ts ->
  let r := Tokens.fields ts d1 d2 d3 d4 in
  single_spaced (Name r) /\ single_spaced (Quota r).
Proof.
  intros F. unfold Tokens.fields.
  destruct (break_keeps _ (fun p => mem p GENDERS) ts F) as [Fn F0].
  destruct (Tokens.break _ ts) as [n ts0]. simpl in Fn, F0.
  pose proof (gender_keeps _ ts0 F0) as F1.
  destruct (Tokens.gender ts0) as [g ts1]. simpl in F1.
  pose proof (category_keeps _ ts1 F1) as F2.
  destruct (Tokens.category ts1) as [cat ts2]. simpl in F2.
  destruct (break_keeps _ match_college_code ts2 F2) as [Fq _].
  destruct (Tokens.break match_college_code ts2) as [q ts3]. simpl in Fq.
  destruct (Tokens.college ts3). simpl. split.
  - apply (joined_single_spaced _ Fn).
  - unfold normalize_quota. destruct (startswith (join q) "Choice").
    + reflexivity.
    + apply (joined_single_spaced _ Fq).
Qed.

Lemma row_fields_of parts r :
  Tokens.row parts = Some r ->
  exists d1 d2 d3 d4 ts,
    parts = d1 :: d2 :: d3 :: d4 :: ts /\ r = Tokens.fields ts d1 d2 d3 d4.
Proof.
  intros H. destruct (row_long _ (row_some_long _ _ H))
    as (d1 & d2 & d3 & d4 & ts & E & R).
  exists d1, d2, d3, d4, ts. split; [exact E|]. congruence.
Qed.

End SplitFacts.

Import SplitFacts.

(** X21.  The Name ends at the first token equal to [M] or [F] after the
    four numbers, and that token is the Gender, whatever follows: a later
    [M] or [F] changes neither field. *)
Theorem X21_name_ends_at_first_gender_token (d1 d2 d3 d4 g : string)
    (name rest : list string) :
  isdigit d1 = true -> isdigit d2 = true ->
  isdigit d3 = true -> isdigit d4 = true ->
  Forall (fun t => mem t GENDERS = false) name -> mem g GENDERS = true ->
  exists r,
    extract_row (d1 :: d2 :: d3 :: d4 :: name ++ g :: rest) = Ok (Some r) /\
    Sr_No r = d1 /\ AIR r = d2 /\ NEET_Roll_No r = d3 /\ CET_Form_No r = d4 /\
    Name r = join name /\ Gender r = g.
Proof.
  intros I1 I2 I3 I4 F G. rewrite Cursor.extract_row_tokens.
  exists (Tokens.fields (name ++ g :: rest) d1 d2 d3 d4). split.
  - unfold Tokens.row, Tokens.numeric. rewrite I1, I2, I3, I4. reflexivity.
  - destruct (fields_numbers (name ++ g :: rest) d1 d2 d3 d4) as (-> & -> & -> & ->).
    destruct (fields_with_gender name g rest d1 d2 d3 d4 F G) as (-> & -> & _).
    repeat split; reflexivity.
Qed.

Lemma X21_name_ends_at_first_gender_token_witness :
  exists r,
    extract_row ["1"; "500"; "123456"; "7890"; "RAM"; "M"; "KUMAR"; "F"; "OBC"]
      = Ok (Some r) /\
    Sr_No r = "1" /\ AIR r = "500" /\ NEET_Roll_No r = "123456" /\
    CET_Form_No r = "7890" /\ Name r = "RAM" /\ Gender r = "M".
Proof.
  apply (X21_name_ends_at_first_gender_token "1" "500" "123456" "7890" "M"
           ["RAM"] ["KUMAR"; "F"; "OBC"]);
    try reflexivity.
  repeat constructor.
Defined.

(** X22.  In every record of every parse the Name and the Quota are
    single spaced: the runs of whitespace between the tokens of the line
    come out as one space each, with none in front or behind. *)
Theorem X22_name_and_quota_single_spaced (text : string) (rows : list Row)
    (r : Row) :
  parse_text_file text = Ok rows -> In r rows ->
  single_spaced (Name r) /\ single_spaced (Quota r).
Proof.
  unfold parse_text_file. rewrite for_lines_fold. unfold bind.
  intros H. inversion H as [Hrows]. clear H. subst rows.
  assert (Inv : forall lines st,
            Forall (fun r => single_spaced (Name r) /\ single_spaced (Quota r))
                   (data st) ->
            Forall (fun r => single_spaced (Name r) /\ single_spaced (Quota r))
                   (data (fold_left next_state lines st))).
  { induction lines as [|l lines IH]; intros st F; simpl; [exact F|].
    apply IH. destruct (next_data st l) as [D|(r0 & Hr & D)].
    - rewrite D. exact F.
    - rewrite D. simpl. apply Forall_app. split; [exact F|].
      constructor; [|constructor].
      destruct (row_fields_of _ _ Hr) as (d1 & d2 & d3 & d4 & ts & E & ->).
      apply fields_single_spaced.
      pose proof (split_tokens (strip l)) as T. fold (tokens l) in T.
      rewrite E in T.
      do 4 (inversion T as [|? ? _ T']; subst; clear T; rename T' into T).
      exact T. }
  intros Hin.
  pose proof (Inv (split_on LF text) initial_state (Forall_nil _)) as F.
  rewrite Forall_forall in F. exact (F r Hin).
Qed.

Lemma X22_name_and_quota_single_spaced_witness :
  let text :=
    on_lines Scenario.bare_header
      (on_lines "sub-header"
         "7 93 334458 6680   ASHA    DEVI   F   State    Quota   1001:Govt") in
  let r := {| Sr_No := "7"; AIR := "93"; NEET_Roll_No := "334458";
              CET_Form_No := "6680"; Name := "ASHA DEVI"; Gender := "F";
              Category := EmptyString; Quota := "State Quota";
              College_Code := "1001"; College_Name := "Govt" |} in
  parse_text_file text = Ok [r] /\
  single_spaced (Name r) /\ single_spaced (Quota r).
Proof.
  split; [reflexivity|].
  apply (X22_name_and_quota_single_spaced
           (on_lines Scenario.bare_header
              (on_lines "sub-header"
                 "7 93 334458 6680   ASHA    DEVI   F   State    Quota   1001:Govt"))
           [{| Sr_No := "7"; AIR := "93"; NEET_Roll_No := "334458";
               CET_Form_No := "6680"; Name := "ASHA DEVI"; Gender := "F";
               Category := EmptyString; Quota := "State Quota";
               College_Code := "1001"; College_Name := "Govt" |}]);
    [reflexivity | left; reflexivity].
Defined.
